(** * Verification of instagrapi's cookie parser and session store

    Shallow embedding of [instagrapi/cookie_parser.py]
    ([parse_browser_cookies_json], [parse_cookies_file],
    [extract_cookie_info], [get_sessionid_from_json]), of the part of
    Python's [json.loads] they rely on, and a model of the client's cookie
    login and session store ([login_by_cookie], [auto_dump_settings],
    [restore_settings]) as the specification describes them.

    Characters: a Python [str] is modelled by [string], whose characters are
    the 256 code points U+0000..U+00FF.  Text outside that range is outside
    the model. *)

From Stdlib Require Import String Ascii ZArith List Bool Lia DecimalString.
From stdpp Require Import base gmap strings list.

Open Scope string_scope.

(* ------------------------------------------------------------------ *)
(** ** Python exceptions and results *)

(** The exceptions the modelled code raises, one per raise site of
    [cookie_parser.py] (plus the [AttributeError] of calling [.strip()] on a
    non-[str]). *)
Inductive exn :=
  | VE_InvalidJSON      (* ValueError("Invalid JSON format: ...") *)
  | VE_NotList          (* ValueError("Cookie data must be a JSON array/list") *)
  | VE_NoCookies        (* ValueError("No cookies found in data") *)
  | VE_NoValidCookies   (* ValueError("No valid cookies found ...") *)
  | FNF_CookieFile      (* FileNotFoundError("Cookie file not found: ...") *)
  | VE_NoCookieData     (* ValueError("No cookie data found in file: ...") *)
  | VE_LineOutOfRange   (* ValueError("Line number ... out of range ...") *)
  | VE_FailedAll        (* ValueError("Failed to parse any valid cookies from file") *)
  | AttributeError.     (* 'int' object has no attribute 'strip', ... *)

(** [except ValueError] catches exactly these. *)
Definition is_value_error (e : exn) : bool :=
  match e with
  | VE_InvalidJSON | VE_NotList | VE_NoCookies | VE_NoValidCookies
  | VE_NoCookieData | VE_LineOutOfRange | VE_FailedAll => true
  | FNF_CookieFile | AttributeError => false
  end.

(** The error kinds of the specification, by message of the raise site. *)
Inductive err_kind := InvalidFormat | OutOfRange | NotFound | OtherError.

Definition kind (e : exn) : err_kind :=
  match e with
  | VE_InvalidJSON | VE_NotList | VE_NoCookies | VE_NoValidCookies
  | VE_NoCookieData | VE_FailedAll => InvalidFormat
  | VE_LineOutOfRange => OutOfRange
  | FNF_CookieFile => NotFound
  | AttributeError => OtherError
  end.

Inductive result (A : Type) := Ok (a : A) | Raise (e : exn).
Arguments Ok {A} a.
Arguments Raise {A} e.

Definition bind {A B} (m : result A) (k : A -> result B) : result B :=
  match m with Ok a => k a | Raise e => Raise e end.

Notation "'let*' x := m 'in' k" := (bind m (fun x => k))
  (at level 200, x name, m at level 100, k at level 200).

(* ------------------------------------------------------------------ *)
(** ** Python string operations *)

Definition ceq (a b : ascii) : bool := Ascii.eqb a b.

(** [str.isspace] on U+0000..U+00FF: \t \n \x0b \x0c \r, \x1c..\x1f, space,
    \x85 and \xa0. *)
Definition is_space (c : ascii) : bool :=
  let n := nat_of_ascii c in
  (((9 <=? n) && (n <=? 13)) || ((28 <=? n) && (n <=? 32))
  || (n =? 133) || (n =? 160))%nat.

Fixpoint lstrip (s : string) : string :=
  match s with
  | EmptyString => EmptyString
  | String c r => if is_space c then lstrip r else s
  end.

Fixpoint rstrip (s : string) : string :=
  match s with
  | EmptyString => EmptyString
  | String c r =>
      let r' := rstrip r in
      match r' with
      | EmptyString => if is_space c then EmptyString else String c EmptyString
      | _ => String c r'
      end
  end.

(** [str.strip()] *)
Definition strip (s : string) : string := rstrip (lstrip s).

(** [s.split(sep)] for a one-character separator: never empty. *)
Fixpoint split_on (sep : ascii) (s : string) : list string :=
  match s with
  | EmptyString => [EmptyString]
  | String c r =>
      let rest := split_on sep r in
      if ceq c sep then EmptyString :: rest
      else match rest with
           | h :: t => String c h :: t
           | [] => [String c EmptyString]
           end
  end.

(** [ch in s] for one character. *)
Fixpoint has_char (ch : ascii) (s : string) : bool :=
  match s with
  | EmptyString => false
  | String c r => ceq c ch || has_char ch r
  end.

(** [s.split(ch, 1)] when [ch in s]: the parts before and after the first
    occurrence. *)
Fixpoint split_once (ch : ascii) (s : string) : string * string :=
  match s with
  | EmptyString => (EmptyString, EmptyString)
  | String c r =>
      if ceq c ch then (EmptyString, r)
      else let '(a, b) := split_once ch r in (String c a, b)
  end.

(** [sep.join(xs)] *)
Fixpoint join (sep : string) (xs : list string) : string :=
  match xs with
  | [] => EmptyString
  | [x] => x
  | x :: r => x ++ sep ++ join sep r
  end.

(* ------------------------------------------------------------------ *)
(** ** JSON values and [json.loads] *)

(** Python values produced by [json.loads]: [None], [bool], [int]/[float]
    (kept as their literal text), [str], [list], [dict] (keys in source
    order, duplicates kept). *)
#[local] Set Warnings "-register-all".
Inductive json :=
  | JNull
  | JBool (b : bool)
  | JNum (lit : string)
  | JStr (s : string)
  | JArr (l : list json)
  | JObj (kvs : list (string * json)).

(** [d.get(k)] on a dict decoded with duplicate keys: the last binding wins. *)
Fixpoint obj_lookup (k : string) (kvs : list (string * json)) : option json :=
  match kvs with
  | [] => None
  | (k', v) :: r =>
      match obj_lookup k r with
      | Some w => Some w
      | None => if String.eqb k k' then Some v else None
      end
  end.

(** [d.get(k, default)] *)
Definition dict_get (k : string) (default : json) (kvs : list (string * json)) : json :=
  match obj_lookup k kvs with Some v => v | None => default end.

(** JSON whitespace accepted by the decoder: [[ \t\n\r]*]. *)
Definition is_json_ws (c : ascii) : bool :=
  ceq c " " || ceq c "009" || ceq c "010" || ceq c "013".

Fixpoint skip_ws (s : string) : string :=
  match s with
  | String c r => if is_json_ws c then skip_ws r else s
  | EmptyString => EmptyString
  end.

(** [s.startswith(p)], returning what follows [p]. *)
Fixpoint strip_prefix (p s : string) : option string :=
  match p, s with
  | EmptyString, _ => Some s
  | String a p', String b s' => if ceq a b then strip_prefix p' s' else None
  | _, _ => None
  end.

Definition is_digit (c : ascii) : bool :=
  let n := nat_of_ascii c in ((48 <=? n) && (n <=? 57))%nat.

Fixpoint take_digits (s : string) : string * string :=
  match s with
  | String c r =>
      if is_digit c then let '(d, rest) := take_digits r in (String c d, rest)
      else (EmptyString, s)
  | EmptyString => (EmptyString, EmptyString)
  end.

(** The number pattern of the decoder,
    [(-?(?:0|[1-9]\d* ))(\.\d+)?([eE][-+]?\d+)?], returning the literal and
    the rest of the input.  A fraction or exponent without digits is not part
    of the number. *)
Definition parse_number (s : string) : option (string * string) :=
  let '(sign, s1) :=
    match s with
    | String c r => if ceq c "-" then ("-", r) else (EmptyString, s)
    | EmptyString => (EmptyString, s)
    end in
  let int_part :=
    match s1 with
    | String c r =>
        if ceq c "0" then Some ("0", r)
        else if is_digit c then let '(d, r') := take_digits r in Some (String c d, r')
        else None
    | EmptyString => None
    end in
  match int_part with
  | None => None
  | Some (ip, s2) =>
      let '(fp, s3) :=
        match s2 with
        | String c r =>
            if ceq c "." then
              match take_digits r with
              | (EmptyString, _) => (EmptyString, s2)
              | (d, r') => (String c d, r')
              end
            else (EmptyString, s2)
        | EmptyString => (EmptyString, s2)
        end in
      let '(ep, s4) :=
        match s3 with
        | String c r =>
            if ceq c "e" || ceq c "E" then
              let '(sg, r1) :=
                match r with
                | String c' r' =>
                    if ceq c' "+" || ceq c' "-" then (String c' EmptyString, r')
                    else (EmptyString, r)
                | EmptyString => (EmptyString, r)
                end in
              match take_digits r1 with
              | (EmptyString, _) => (EmptyString, s3)
              | (d, r2) => (String c (sg ++ d), r2)
              end
            else (EmptyString, s3)
        | EmptyString => (EmptyString, s3)
        end in
      Some (sign ++ ip ++ fp ++ ep, s4)
  end.

Definition hex_val (c : ascii) : option nat :=
  let n := nat_of_ascii c in
  if ((48 <=? n) && (n <=? 57))%nat then Some (n - 48)%nat
  else if ((97 <=? n) && (n <=? 102))%nat then Some (n - 87)%nat
  else if ((65 <=? n) && (n <=? 70))%nat then Some (n - 55)%nat
  else None.

Definition hex4 (a b c d : ascii) : option nat :=
  match hex_val a, hex_val b, hex_val c, hex_val d with
  | Some x, Some y, Some z, Some w => Some (((x * 16 + y) * 16 + z) * 16 + w)%nat
  | _, _, _, _ => None
  end.

Definition dquote : ascii := "034".
Definition bslash : ascii := "092".

(** The one-character escapes: backslash followed by a double quote, a
    backslash, a slash, b, f, n, r or t. *)
Definition simple_escape (e : ascii) : option ascii :=
  if ceq e dquote then Some dquote
  else if ceq e bslash then Some bslash
  else if ceq e "/" then Some "/"%char
  else if ceq e "b" then Some "008"%char
  else if ceq e "f" then Some "012"%char
  else if ceq e "n" then Some "010"%char
  else if ceq e "r" then Some "013"%char
  else if ceq e "t" then Some "009"%char
  else None.

(** [scanstring] in strict mode, after the opening quote: the decoded text
    and the input after the closing quote.  Control characters below U+0020
    are refused; a [\uXXXX] escape above U+00FF is outside the model. *)
Fixpoint parse_str_body (s : string) : option (string * string) :=
  match s with
  | EmptyString => None
  | String c r =>
      if ceq c dquote then Some (EmptyString, r)
      else if ceq c bslash then
        match r with
        | EmptyString => None
        | String e r' =>
            match simple_escape e with
            | Some ch =>
                match parse_str_body r' with
                | Some (body, rest) => Some (String ch body, rest)
                | None => None
                end
            | None =>
                if ceq e "u" then
                  match r' with
                  | String h1 (String h2 (String h3 (String h4 r''))) =>
                      match hex4 h1 h2 h3 h4 with
                      | Some v =>
                          if (v <? 256)%nat then
                            match parse_str_body r'' with
                            | Some (body, rest) => Some (String (ascii_of_nat v) body, rest)
                            | None => None
                            end
                          else None
                      | None => None
                      end
                  | _ => None
                  end
                else None
            end
        end
      else if (nat_of_ascii c <? 32)%nat then None
      else
        match parse_str_body r with
        | Some (body, rest) => Some (String c body, rest)
        | None => None
        end
  end.

(** [scan_once], [_parse_array] and [_parse_object] of the decoder.  [fuel]
    bounds the depth of the call tree; [json_loads] gives more than the
    input has characters, so it never runs out. *)
Fixpoint parse_value (fuel : nat) (s : string) : option (json * string) :=
  match fuel with
  | O => None
  | S f =>
      match s with
      | EmptyString => None
      | String c r =>
          if ceq c dquote then
            match parse_str_body r with
            | Some (x, rest) => Some (JStr x, rest)
            | None => None
            end
          else if ceq c "{" then
            let r := skip_ws r in
            match r with
            | String c' r' => if ceq c' "}" then Some (JObj [], r') else parse_members f [] r
            | EmptyString => None
            end
          else if ceq c "[" then
            let r := skip_ws r in
            match r with
            | String c' r' => if ceq c' "]" then Some (JArr [], r') else parse_elems f [] r
            | EmptyString => None
            end
          else
            match strip_prefix "null" s with Some rest => Some (JNull, rest) | None =>
            match strip_prefix "true" s with Some rest => Some (JBool true, rest) | None =>
            match strip_prefix "false" s with Some rest => Some (JBool false, rest) | None =>
            match strip_prefix "NaN" s with Some rest => Some (JNum "NaN", rest) | None =>
            match strip_prefix "Infinity" s with Some rest => Some (JNum "Infinity", rest) | None =>
            match strip_prefix "-Infinity" s with Some rest => Some (JNum "-Infinity", rest) | None =>
            match parse_number s with
            | Some (lit, rest) => Some (JNum lit, rest)
            | None => None
            end end end end end end end
      end
  end
with parse_elems (fuel : nat) (acc : list json) (s : string) : option (json * string) :=
  match fuel with
  | O => None
  | S f =>
      match parse_value f s with
      | None => None
      | Some (v, r) =>
          match skip_ws r with
          | String c r' =>
              if ceq c "]" then Some (JArr (rev (v :: acc)), r')
              else if ceq c "," then parse_elems f (v :: acc) (skip_ws r')
              else None
          | EmptyString => None
          end
      end
  end
with parse_members (fuel : nat) (acc : list (string * json)) (s : string)
    : option (json * string) :=
  match fuel with
  | O => None
  | S f =>
      match s with
      | String c r =>
          if ceq c dquote then
            match parse_str_body r with
            | None => None
            | Some (k, r1) =>
                match skip_ws r1 with
                | String c1 r2 =>
                    if ceq c1 ":" then
                      match parse_value f (skip_ws r2) with
                      | None => None
                      | Some (v, r3) =>
                          match skip_ws r3 with
                          | String c2 r4 =>
                              if ceq c2 "}" then Some (JObj (rev ((k, v) :: acc)), r4)
                              else if ceq c2 "," then parse_members f ((k, v) :: acc) (skip_ws r4)
                              else None
                          | EmptyString => None
                          end
                      end
                    else None
                | EmptyString => None
                end
            end
          else None
      | EmptyString => None
      end
  end.

(** [json.loads(s)]: [None] where it raises [JSONDecodeError]. *)
Definition json_loads (s : string) : option json :=
  match parse_value (2 * String.length s + 2) (skip_ws s) with
  | Some (v, rest) =>
      match skip_ws rest with EmptyString => Some v | _ => None end
  | None => None
  end.

(** Test inputs are written with ['] for the JSON double quote. *)
Fixpoint dq (s : string) : string :=
  match s with
  | EmptyString => EmptyString
  | String c r => String (if ceq c "'" then dquote else c) (dq r)
  end.

Example json_loads_ex1 :
  json_loads (dq " [ {'name': 'a', 'value': 1.5e3}, null, true, [] ] ")
  = Some (JArr [JObj [("name", JStr "a"); ("value", JNum "1.5e3")]; JNull; JBool true; JArr []]).
Proof. reflexivity. Qed.
Example json_loads_ex2 : json_loads (dq "[1,]") = None.
Proof. reflexivity. Qed.
Example json_loads_ex3 : json_loads (dq "{'a':-0.5E-2,'b':'x\u0041\n'}") =
  Some (JObj [("a", JNum "-0.5E-2"); ("b", JStr (String "x" (String "A" (String "010" EmptyString))))]).
Proof. reflexivity. Qed.
Example json_loads_ex4 : json_loads "01" = None.
Proof. reflexivity. Qed.

(* ------------------------------------------------------------------ *)
(** ** [cookie_parser.py] *)

(** [json_data : Union[str, List[Dict]]]: a JSON text, or an already
    decoded Python value. *)
Inductive json_input := Raw (s : string) | Decoded (v : json).

Definition essential_cookies : list string :=
  ["sessionid"; "mid"; "csrftoken"; "ds_user_id"; "ig_did"; "datr"; "wd"; "rur"].

Definition is_essential (name : string) : bool :=
  existsb (String.eqb name) essential_cookies.

(** [x.strip()] on a Python value: only a [str] has the method. *)
Definition py_strip (v : json) : result string :=
  match v with JStr s => Ok (strip s) | _ => Raise AttributeError end.

(** The [for cookie in cookies] loop building [cookie_pairs]. *)
Fixpoint collect_pairs (include_all : bool) (cookies : list json) : result (list string) :=
  match cookies with
  | [] => Ok []
  | cookie :: rest =>
      match cookie with
      | JObj kvs =>
          let* name := py_strip (dict_get "name" (JStr "") kvs) in
          let* value := py_strip (dict_get "value" (JStr "") kvs) in
          if String.eqb name "" || String.eqb value "" then collect_pairs include_all rest
          else if negb include_all && negb (is_essential name) then collect_pairs include_all rest
          else let* tl := collect_pairs include_all rest in
               Ok ((name ++ "=" ++ value) :: tl)
      | _ => collect_pairs include_all rest
      end
  end.

Definition decode_input (json_data : json_input) : result json :=
  match json_data with
  | Raw s => match json_loads s with Some v => Ok v | None => Raise VE_InvalidJSON end
  | Decoded v => Ok v
  end.

Definition parse_browser_cookies_json (json_data : json_input) (include_all : bool)
    : result string :=
  let* cookies := decode_input json_data in
  match cookies with
  | JArr l =>
      match l with
      | [] => Raise VE_NoCookies
      | _ =>
          let* cookie_pairs := collect_pairs include_all l in
          match cookie_pairs with
          | [] => Raise VE_NoValidCookies
          | _ => Ok (join "; " cookie_pairs)
          end
      end
  | _ => Raise VE_NotList
  end.

(** [str.split] on a set of separator characters. *)
Fixpoint split_when (p : ascii -> bool) (s : string) : list string :=
  match s with
  | EmptyString => [EmptyString]
  | String c r =>
      let rest := split_when p r in
      if p c then EmptyString :: rest
      else match rest with
           | h :: t => String c h :: t
           | [] => [String c EmptyString]
           end
  end.

(** [[line.strip() for line in f if line.strip()]] for a file opened in text
    mode: universal newlines end a line at \n, \r or \r\n; the empty pieces
    a \r\n leaves are blank and dropped like any blank line. *)
Definition file_lines (contents : string) : list string :=
  List.filter (fun l => negb (String.eqb l EmptyString))
    (map strip (split_when (fun c => ceq c "010" || ceq c "013") contents)).

(** The [for i, line_data in enumerate(lines, 1)] loop: a [ValueError] is
    printed and the line skipped; any other exception propagates. *)
Fixpoint parse_all_lines (include_all : bool) (lines : list string) : result (list string) :=
  match lines with
  | [] => Ok []
  | line_data :: rest =>
      match parse_browser_cookies_json (Raw line_data) include_all with
      | Ok cookie_str =>
          let* tl := parse_all_lines include_all rest in Ok (cookie_str :: tl)
      | Raise e =>
          if is_value_error e then parse_all_lines include_all rest else Raise e
      end
  end.

(** The file system: path to UTF-8 decoded file contents. *)
Definition fsys := gmap string string.

(** [parse_cookies_file]: a single cookie string ([inl]) when [line_number]
    is given, the list of cookie strings ([inr]) otherwise. *)
Definition parse_cookies_file (fs : fsys) (file_path : string)
    (line_number : option Z) (include_all : bool) : result (string + list string) :=
  match fs !! file_path with
  | None => Raise FNF_CookieFile
  | Some contents =>
      let lines := file_lines contents in
      match lines with
      | [] => Raise VE_NoCookieData
      | _ =>
          match line_number with
          | Some n =>
              if (n <? 1)%Z || (Z.of_nat (length lines) <? n)%Z then Raise VE_LineOutOfRange
              else
                let line_data := nth (Z.to_nat (n - 1)) lines EmptyString in
                let* c := parse_browser_cookies_json (Raw line_data) include_all in
                Ok (inl c)
          | None =>
              let* results := parse_all_lines include_all lines in
              match results with
              | [] => Raise VE_FailedAll
              | _ => Ok (inr results)
              end
          end
      end
  end.

(** The loop of [extract_cookie_info]; a later key overwrites an earlier one.
    The loop variable [pair] is [pair'] here ([pair] is a constructor). *)
Fixpoint extract_loop (pairs : list string) (cookies : gmap string string)
    : gmap string string :=
  match pairs with
  | [] => cookies
  | pair' :: rest =>
      let pair' := strip pair' in
      if negb (has_char "=" pair') then extract_loop rest cookies
      else let '(key, value) := split_once "=" pair' in
           extract_loop rest (<[strip key := strip value]> cookies)
  end.

Definition extract_cookie_info (cookie_string : string) : gmap string string :=
  extract_loop (split_on ";" cookie_string) ∅.

(** The search loop of [get_sessionid_from_json]; Python's [None] is
    [JNull]. *)
Fixpoint find_sessionid (cookies : list json) : json :=
  match cookies with
  | [] => JNull
  | JObj kvs :: rest =>
      match dict_get "name" JNull kvs with
      | JStr n => if String.eqb n "sessionid" then dict_get "value" JNull kvs
                  else find_sessionid rest
      | _ => find_sessionid rest
      end
  | _ :: rest => find_sessionid rest
  end.

Definition get_sessionid_from_json (json_data : json_input) : json :=
  match json_data with
  | Raw s =>
      match json_loads s with
      | None => JNull
      | Some (JArr cookies) => find_sessionid cookies
      | Some _ => JNull
      end
  | Decoded (JArr cookies) => find_sessionid cookies
  | Decoded _ => JNull
  end.

Example parse_doc_ex :
  parse_browser_cookies_json
    (Raw (dq "[{'name':'sessionid','value':'123%3Axxx'},{'name':'mid','value':'yyy'}]")) true
  = Ok "sessionid=123%3Axxx; mid=yyy".
Proof. reflexivity. Qed.
Example extract_doc_ex :
  extract_cookie_info "sessionid=123%3Axxx; mid=yyy; ds_user_id=123" !! "sessionid"
  = Some "123%3Axxx".
Proof. reflexivity. Qed.

(* ------------------------------------------------------------------ *)
(** ** [examples/cookie_login.py]: [extract_sessionid_only] *)

(** The loop of [extract_sessionid_only]: the text after the first [=] of
    the first trimmed segment starting with ["sessionid="].  [None] is the
    [ValueError("No sessionid found in cookie string")] it raises. *)
Fixpoint sessionid_loop (pairs : list string) : option string :=
  match pairs with
  | [] => None
  | pair' :: rest =>
      let pair' := strip pair' in
      if String.prefix "sessionid=" pair' then Some (snd (split_once "=" pair'))
      else sessionid_loop rest
  end.

Definition extract_sessionid_only (cookie_string : string) : option string :=
  sessionid_loop (split_on ";" cookie_string).

(* ------------------------------------------------------------------ *)
(** ** Cookie login *)

(** The leading run of decimal digits of a string. *)
Definition leading_digits (s : string) : string := fst (take_digits s).

Inductive login_error :=
  | LE_Empty           (* "Cookie string cannot be empty" *)
  | LE_NoSessionid     (* "No 'sessionid' found in cookie string" *)
  | LE_BadLength       (* "Invalid sessionid length" *)
  | LE_NoUserId.       (* "Cannot extract user_id from sessionid" *)

Section Login.

(** The minimum sessionid length; the specification does not fix it. *)
Variable min_sessionid_len : nat.

(** Modelled from the spec: the cookie checks of the client's
    [login_by_cookie] (its body is not in this repository's sources).  The
    cookie string must not be blank; its [sessionid] entry (read as by
    [extract_cookie_info]) must exist, have at least [min_sessionid_len]
    characters, and begin with a run of decimal digits immediately followed
    by a non-digit separator; that run is the user id returned. *)
Definition login_by_cookie (cookie_string : string) : login_error + string :=
  if String.eqb (strip cookie_string) EmptyString then inl LE_Empty
  else
    match extract_cookie_info cookie_string !! "sessionid" with
    | None => inl LE_NoSessionid
    | Some sessionid =>
        if (String.length sessionid <? min_sessionid_len)%nat then inl LE_BadLength
        else
          match take_digits sessionid with
          | (EmptyString, _) => inl LE_NoUserId
          | (_, EmptyString) => inl LE_NoUserId
          | (user_id, String _ _) => inr user_id
          end
  end.

End Login.

(* ------------------------------------------------------------------ *)
(** ** Session store *)

(** [str(n)] for a non-negative integer. *)
Definition N_to_string (n : N) : string := NilZero.string_of_uint (N.to_uint n).

(** [sub in s] *)
Fixpoint contains (sub s : string) : bool :=
  match strip_prefix sub s with
  | Some _ => true
  | None => match s with EmptyString => false | String _ r => contains sub r end
  end.

(** [settings["authorization_data"]["ds_user_id"]], the authoritative user id
    of a settings record. *)
Definition settings_user_id (settings : json) : option string :=
  match settings with
  | JObj kvs =>
      match obj_lookup "authorization_data" kvs with
      | Some (JObj auth) =>
          match obj_lookup "ds_user_id" auth with Some (JStr u) => Some u | _ => None end
      | _ => None
      end
  | _ => None
  end.

(** A client: its username and its settings record. *)
Record client := { username : string; settings : json }.

(** The session directory [base_dir]: [index.json] (identity key to
    [session_dir]) and the [settings.json] of every account directory. *)
Record store := { index : gmap string string; files : gmap string json }.

(** A directory name may be used for an account when nothing is stored there
    or the settings stored there are the same account's. *)
Definition dir_usable (files : gmap string json) (uid : string) (dir : string) : bool :=
  match files !! dir with
  | None => true
  | Some old => match settings_user_id old with
                | Some u => String.eqb u uid
                | None => false
                end
  end.

Fixpoint scan_suffix (files : gmap string json) (uid name : string) (i fuel : nat) : string :=
  let cand := name ++ "_" ++ NilZero.string_of_uint (Nat.to_uint i) in
  match fuel with
  | O => cand
  | S f => if dir_usable files uid cand then cand else scan_suffix files uid name (S i) f
  end.

(** Modelled from the spec: the directory choice of [auto_dump_settings]:
    [name] itself, else the first usable of [name_0], [name_1], ...  There
    are fewer stored directories than candidates scanned, so the scan always
    ends on a usable one. *)
Definition pick_session_dir (files : gmap string json) (uid name : string) : string :=
  if dir_usable files uid name then name
  else scan_suffix files uid name 0 (size files).

(** Modelled from the spec: [auto_dump_settings] (not in this repository's
    sources).  [None] is [NotAuthenticated].  Writes the settings to the
    chosen directory and points the username key and the user-id key of the
    index at it. *)
Definition auto_dump_settings (cl : client) (st : store) : option (string * store) :=
  if String.eqb (username cl) EmptyString then None
  else
    match settings_user_id (settings cl) with
    | None => None
    | Some uid =>
        let dir := pick_session_dir (files st) uid (username cl) in
        Some (dir, {| index := <[uid := dir]> (<[username cl := dir]> (index st));
                      files := <[dir := settings cl]> (files st) |})
    end.

(** An identifier given to [restore_settings]. *)
Inductive identifier := IdStr (s : string) | IdInt (n : N).

Definition is_cookie_string (s : string) : bool := contains "sessionid=" s.

(** Modelled from the spec: the index key [restore_settings] looks up.  A
    cookie string gives the leading digit run of its [sessionid]; an integer
    gives [str(n)]; any other string is looked up as username, then as user
    id, which is one and the same index key. *)
Definition resolve_key (ident : identifier) : option string :=
  match ident with
  | IdInt n => Some (N_to_string n)
  | IdStr s =>
      if is_cookie_string s then
        match extract_cookie_info s !! "sessionid" with
        | Some sid =>
            match leading_digits sid with EmptyString => None | uid => Some uid end
        | None => None
        end
      else Some s
  end.

(** Modelled from the spec: [restore_settings]; [None] is [NotFound] (no index
    entry, or its settings file missing). *)
Definition restore_settings (st : store) (ident : identifier) : option json :=
  match resolve_key ident with
  | None => None
  | Some key =>
      match index st !! key with
      | None => None
      | Some dir => files st !! dir
      end
  end.

(* ------------------------------------------------------------------ *)
(** ** Specification-side definitions *)

(** The decoded value of an input, [None] when the JSON text is malformed. *)
Definition decoded (json_data : json_input) : option json :=
  match json_data with Raw s => json_loads s | Decoded v => Some v end.

Definition is_str (v : json) : bool := match v with JStr _ => true | _ => false end.

(** An entry whose ['name'] and ['value'] are strings where present. *)
Definition entry_well_typed (e : json) : bool :=
  match e with
  | JObj kvs => is_str (dict_get "name" (JStr "") kvs) && is_str (dict_get "value" (JStr "") kvs)
  | _ => true
  end.

(** The trimmed (name, value) of an entry with non-empty trimmed ['name']
    and ['value']. *)
Definition entry_pair (e : json) : option (string * string) :=
  match e with
  | JObj kvs =>
      match dict_get "name" (JStr "") kvs, dict_get "value" (JStr "") kvs with
      | JStr n, JStr v =>
          if String.eqb (strip n) EmptyString || String.eqb (strip v) EmptyString then None
          else Some (strip n, strip v)
      | _, _ => None
      end
  | _ => None
  end.

(** The trimmed pairs of the entries with non-empty name and value. *)
Fixpoint valid_pairs (l : list json) : list (string * string) :=
  match l with
  | [] => []
  | e :: r => match entry_pair e with Some p => p :: valid_pairs r | None => valid_pairs r end
  end.

(** The surviving entries, in input order, duplicates kept. *)
Definition surviving_pairs (include_all : bool) (l : list json) : list (string * string) :=
  List.filter (fun p => include_all || is_essential p.1) (valid_pairs l).

Definition fmt_pair (p : string * string) : string := p.1 ++ "=" ++ p.2.

(** A dict with last-write-wins insertion of the pairs, in order. *)
Definition dict_of_pairs (ps : list (string * string)) : gmap string string :=
  fold_left (fun m p => <[p.1 := p.2]> m) ps ∅.

(** The conditions under which the specification says
    [parse_browser_cookies_json] fails: malformed JSON, not a list, an empty
    list, or no surviving entry. *)
Definition parse_rejects (json_data : json_input) (include_all : bool) : Prop :=
  decoded json_data = None \/
  (exists v, decoded json_data = Some v /\ forall l, v <> JArr l) \/
  decoded json_data = Some (JArr []) \/
  (exists l, decoded json_data = Some (JArr l) /\ surviving_pairs include_all l = []).

(** [v == 'sessionid'] *)
Definition is_sessionid_name (v : json) : bool :=
  match v with JStr n => String.eqb n "sessionid" | _ => false end.

(** The first entry named ['sessionid']. *)
Fixpoint first_sessionid_entry (l : list json) : option (list (string * json)) :=
  match l with
  | [] => None
  | JObj kvs :: r =>
      if is_sessionid_name (dict_get "name" JNull kvs) then Some kvs
      else first_sessionid_entry r
  | _ :: r => first_sessionid_entry r
  end.

Definition all_digits (s : string) : bool := forallb is_digit (list_ascii_of_string s).

(** Sample settings records and clients for the session store. *)
Definition sample_settings (uid tag : string) : json :=
  JObj [("uuids", JObj [("uuid", JStr tag)]);
        ("authorization_data",
          JObj [("ds_user_id", JStr uid); ("sessionid", JStr (uid ++ "%3Atest_session"))]);
        ("cookies", JObj []);
        ("last_login", JNum "1640000000.0")].

Definition empty_store : store := {| index := ∅; files := ∅ |}.

(** Two saves in a row. *)
Definition dump_twice (cl1 cl2 : client) (st : store) : option store :=
  match auto_dump_settings cl1 st with
  | Some (_, st1) => option_map snd (auto_dump_settings cl2 st1)
  | None => None
  end.

(** The cookie strings of the lines that parse, in file order. *)
Fixpoint ok_results (rs : list (result string)) : list string :=
  match rs with
  | [] => []
  | Ok c :: r => c :: ok_results r
  | Raise _ :: r => ok_results r
  end.

(** A binding of [extract_cookie_info]: trimmed key without [=] or [;],
    trimmed value without [;]. *)
Definition binding_ok (k v : string) : Prop :=
  strip k = k /\ strip v = v /\ has_char "=" k = false /\ has_char ";" k = false /\
  has_char ";" v = false.

(** A surviving (name, value) pair: trimmed and non-empty. *)
Definition pair_ok (p : string * string) : Prop :=
  strip p.1 = p.1 /\ strip p.2 = p.2 /\ p.1 <> EmptyString /\ p.2 <> EmptyString.

(** Inputs for the examples below. *)
Definition lf : string := String "010" EmptyString.

Definition cookie_a : json := JObj [("name", JStr "a"); ("value", JStr "1")].
Definition cookie_b : json := JObj [("domain", JStr ".x"); ("name", JStr "b"); ("value", JStr "2")].

Definition batch_file : string :=
  dq "[{'name':'a','value':'1'}]" ++ lf ++ lf ++ "not json" ++ lf ++
  dq "[{'name':'mid','value':'m'}]".

Definition batch_fs : fsys := {[ "cookies.txt" := batch_file ]}.

(* ================================================================== *)
(** * Lemmas *)

Ltac destr_if := match goal with |- context [if ?b then _ else _] => destruct b eqn:? end.

Lemma is_space_eq : is_space "=" = false.
Proof. reflexivity. Qed.

Lemma has_char_lstrip c s : is_space c = false -> has_char c (lstrip s) = has_char c s.
Proof.
  intros Hc. induction s as [|a r IH]; simpl; [reflexivity|].
  destruct (is_space a) eqn:Ha; simpl.
  - rewrite IH. unfold ceq. destruct (Ascii.eqb_spec a c); [subst; congruence|reflexivity].
  - reflexivity.
Qed.

Lemma has_char_rstrip c s : has_char c (rstrip s) = true -> has_char c s = true.
Proof.
  induction s as [|a r IH]; simpl; [done|].
  intros H. apply orb_true_iff.
  destruct (rstrip r) as [|a0 s0] eqn:Hr; [destruct (is_space a)|]; simpl in H; try discriminate.
  - apply orb_true_iff in H as [H|H]; [by left|discriminate].
  - apply orb_true_iff in H as [H|H]; [by left|].
    right. apply IH. exact H.
Qed.

Lemma has_char_strip c s : is_space c = false -> has_char c (strip s) = true -> has_char c s = true.
Proof. unfold strip. intros Hc H. rewrite <- (has_char_lstrip c s Hc). by apply has_char_rstrip. Qed.

Lemma split_on_pieces sep c s :
  Forall (fun p => has_char c p = true -> has_char c s = true) (split_on sep s).
Proof.
  induction s as [|a r IH]; simpl.
  - constructor; [intros H; exact H|constructor].
  - destruct (ceq a sep).
    + constructor; [discriminate|]. eapply Forall_impl; [exact IH|]. simpl.
      intros p Hp Hpc. rewrite Hp; [apply orb_true_r|done].
    + destruct (split_on sep r) as [|h t] eqn:Hs.
      * constructor; [|constructor]. simpl. intros H.
        apply orb_true_iff in H as [H|H]; [by rewrite H|discriminate].
      * inversion IH as [|? ? Hh Ht]; subst. constructor.
        -- simpl. intros H. apply orb_true_iff in H as [H|H]; [by rewrite H|].
           rewrite Hh; [apply orb_true_r|done].
        -- eapply Forall_impl; [exact Ht|]. simpl.
           intros p Hp Hpc. rewrite Hp; [apply orb_true_r|done].
Qed.

Lemma extract_loop_filter segs m :
  extract_loop segs m = extract_loop (List.filter (fun p => has_char "=" (strip p)) segs) m.
Proof.
  revert m. induction segs as [|p segs IH]; intros m; simpl; [done|].
  destruct (has_char "=" (strip p)) eqn:Hp; simpl; rewrite ?Hp; simpl; [|apply IH].
  destruct (split_once "=" (strip p)). apply IH.
Qed.

Lemma extract_loop_none segs m :
  Forall (fun p => has_char "=" (strip p) = false) segs -> extract_loop segs m = m.
Proof.
  revert m. induction segs as [|p segs IH]; intros m Hf; simpl; [done|].
  inversion Hf; subst. rewrite H1. simpl. by apply IH.
Qed.

Lemma extract_cookie_info_no_eq_sign s : has_char "=" s = false -> extract_cookie_info s = ∅.
Proof.
  intros Hs. unfold extract_cookie_info. apply extract_loop_none.
  eapply Forall_impl; [apply (split_on_pieces ";" "=" s)|]. simpl.
  intros p Hp. destruct (has_char "=" (strip p)) eqn:Hq; [|done].
  apply has_char_strip in Hq; [|done]. rewrite Hp in Hs; done.
Qed.

Lemma find_sessionid_spec l :
  find_sessionid l =
    match first_sessionid_entry l with Some kvs => dict_get "value" JNull kvs | None => JNull end.
Proof.
  induction l as [|e l IH]; simpl; [done|].
  destruct e; try exact IH.
  unfold is_sessionid_name. destruct (dict_get "name" JNull kvs); try exact IH.
  destruct (String.eqb s "sessionid"); [done|exact IH].
Qed.

Lemma collect_pairs_spec b l :
  forallb entry_well_typed l = true ->
  collect_pairs b l = Ok (map fmt_pair (surviving_pairs b l)).
Proof.
  unfold surviving_pairs. induction l as [|e l IH]; simpl; [done|].
  intros Hwt. apply andb_true_iff in Hwt as [He Hl].
  destruct e; simpl; try (apply IH; exact Hl).
  unfold entry_well_typed in He. unfold entry_pair.
  destruct (dict_get "name" (JStr "") kvs) as [| | |n| |]; try discriminate.
  destruct (dict_get "value" (JStr "") kvs) as [| | |v| |]; try discriminate.
  simpl. destruct (String.eqb (strip n) "" || String.eqb (strip v) "") eqn:Hnv; [by apply IH|].
  simpl. destruct b; simpl.
  - rewrite IH by exact Hl. reflexivity.
  - destruct (is_essential (strip n)); simpl; [|by apply IH].
    rewrite IH by exact Hl. reflexivity.
Qed.

Lemma collect_pairs_well_typed b l ps :
  collect_pairs b l = Ok ps -> forallb entry_well_typed l = true.
Proof.
  revert ps. induction l as [|e l IH]; simpl; intros ps H; [done|].
  destruct e; simpl; try (eapply IH; exact H).
  unfold entry_well_typed.
  destruct (dict_get "name" (JStr "") kvs) as [| | |n| |]; simpl in H; try discriminate.
  destruct (dict_get "value" (JStr "") kvs) as [| | |v| |]; simpl in H; try discriminate.
  simpl. destruct (String.eqb (strip n) "" || String.eqb (strip v) ""); [eapply IH; exact H|].
  destruct (negb b && negb (is_essential (strip n))); [eapply IH; exact H|].
  destruct (collect_pairs b l) eqn:E; [|discriminate]. eapply IH; reflexivity.
Qed.

Lemma collect_pairs_ok b l ps :
  collect_pairs b l = Ok ps -> ps = map fmt_pair (surviving_pairs b l).
Proof.
  intros H. pose proof (collect_pairs_well_typed b l ps H) as Hwt.
  rewrite collect_pairs_spec in H by exact Hwt. by injection H.
Qed.

Lemma decode_input_decoded x v : decode_input x = Ok v <-> decoded x = Some v.
Proof.
  destruct x as [s|w]; simpl; [destruct (json_loads s)|]; split; intros H;
    try discriminate; by injection H as ->.
Qed.

Lemma parse_ok_iff x b s :
  parse_browser_cookies_json x b = Ok s <->
  exists l, decoded x = Some (JArr l) /\ forallb entry_well_typed l = true /\
            surviving_pairs b l <> [] /\ s = join "; " (map fmt_pair (surviving_pairs b l)).
Proof.
  unfold parse_browser_cookies_json. split.
  - destruct (decode_input x) as [v|e] eqn:Hd; simpl; [|discriminate].
    apply decode_input_decoded in Hd.
    destruct v; try discriminate. destruct l as [|e l]; [discriminate|].
    destruct (collect_pairs b (e :: l)) as [ps|err] eqn:Hc; simpl; [|discriminate].
    pose proof (collect_pairs_well_typed _ _ _ Hc) as Hwt.
    apply collect_pairs_ok in Hc. subst ps.
    destruct (surviving_pairs b (e :: l)) as [|p ps] eqn:Hs; simpl; [discriminate|].
    intros H. injection H as <-. exists (e :: l). rewrite Hs. repeat split; done.
  - intros (l & Hd & Hwt & Hne & ->).
    apply decode_input_decoded in Hd. rewrite Hd. simpl.
    destruct l as [|e l]; [done|].
    rewrite collect_pairs_spec by exact Hwt. simpl.
    destruct (surviving_pairs b (e :: l)); [done|reflexivity].
Qed.

Lemma parse_cases x b :
  (forall l, decoded x = Some (JArr l) -> forallb entry_well_typed l = true) ->
  parse_browser_cookies_json x b =
    match decoded x with
    | None => Raise VE_InvalidJSON
    | Some (JArr []) => Raise VE_NoCookies
    | Some (JArr l) =>
        match surviving_pairs b l with
        | [] => Raise VE_NoValidCookies
        | ps => Ok (join "; " (map fmt_pair ps))
        end
    | Some _ => Raise VE_NotList
    end.
Proof.
  intros Hwt. unfold parse_browser_cookies_json.
  assert (Hd : decode_input x = match decoded x with Some v => Ok v | None => Raise VE_InvalidJSON end).
  { destruct x as [s|v]; simpl; [destruct (json_loads s)|]; reflexivity. }
  rewrite Hd. destruct (decoded x) as [v|] eqn:Ex; simpl; [|reflexivity].
  destruct v; try reflexivity. destruct l as [|e l]; [reflexivity|].
  rewrite collect_pairs_spec by (apply Hwt; reflexivity). simpl.
  destruct (surviving_pairs b (e :: l)); reflexivity.
Qed.

Lemma filter_true {A} (l : list A) : List.filter (fun _ => true) l = l.
Proof. induction l; simpl; congruence. Qed.

Lemma surviving_pairs_essential l :
  surviving_pairs false l = List.filter (fun p => is_essential p.1) (surviving_pairs true l).
Proof. unfold surviving_pairs. simpl. by rewrite filter_true. Qed.

(** *** Strings: append, strip, split and join *)

Lemma str_app_nil_l (b : string) : EmptyString ++ b = b.
Proof. reflexivity. Qed.

Lemma str_app_cons x (a b : string) : String x a ++ b = String x (a ++ b).
Proof. reflexivity. Qed.

Ltac str_simpl := rewrite ?str_app_nil_l, ?str_app_cons.

Lemma str_app_assoc (a b c : string) : (a ++ b) ++ c = a ++ (b ++ c).
Proof. induction a as [|x a IH]; str_simpl; [done|by rewrite IH]. Qed.

Lemma has_char_app c a b : has_char c (a ++ b) = has_char c a || has_char c b.
Proof. induction a as [|x a IH]; str_simpl; simpl; [done|by rewrite IH, orb_assoc]. Qed.

Lemma lstrip_idem s : lstrip (lstrip s) = lstrip s.
Proof.
  induction s as [|x s IH]; simpl; [done|].
  destruct (is_space x) eqn:Hx; [exact IH|simpl; by rewrite Hx].
Qed.

Lemma rstrip_cons x r :
  rstrip (String x r) =
    match rstrip r with
    | EmptyString => if is_space x then EmptyString else String x EmptyString
    | _ => String x (rstrip r)
    end.
Proof. reflexivity. Qed.

Lemma rstrip_idem s : rstrip (rstrip s) = rstrip s.
Proof.
  induction s as [|x s IH]; [done|].
  rewrite (rstrip_cons x s). destruct (rstrip s) as [|y t] eqn:Hs.
  - destruct (is_space x) eqn:Hx; [done|]. simpl. by rewrite Hx.
  - rewrite rstrip_cons, IH. reflexivity.
Qed.

Lemma lstrip_first_not_space t :
  lstrip t = t -> match t with String x _ => is_space x = false | EmptyString => True end.
Proof.
  destruct t as [|x r]; simpl; [done|].
  destruct (is_space x) eqn:Hx; [|done].
  intros H. exfalso. assert (Hl : String.length (lstrip r) <= String.length r).
  { clear. induction r as [|y r IH]; simpl; [lia|]. destruct (is_space y); simpl; lia. }
  rewrite H in Hl. simpl in Hl. lia.
Qed.

Lemma lstrip_rstrip t : lstrip t = t -> lstrip (rstrip t) = rstrip t.
Proof.
  intros H. apply lstrip_first_not_space in H.
  destruct t as [|x r]; simpl; [done|].
  destruct (rstrip r); simpl; [rewrite H|]; simpl; rewrite ?H; done.
Qed.

Lemma strip_idem s : strip (strip s) = strip s.
Proof.
  unfold strip. rewrite lstrip_rstrip by apply lstrip_idem. apply rstrip_idem.
Qed.

Lemma lstrip_strip s : lstrip (strip s) = strip s.
Proof. unfold strip. apply lstrip_rstrip, lstrip_idem. Qed.

Lemma rstrip_strip s : rstrip (strip s) = strip s.
Proof. unfold strip. apply rstrip_idem. Qed.

Lemma rstrip_app a b : rstrip b <> EmptyString -> rstrip (a ++ b) = a ++ rstrip b.
Proof.
  intros Hb. induction a as [|x a IH]; simpl; [done|].
  rewrite IH. destruct a; simpl; [|done].
  destruct (rstrip b); [done|reflexivity].
Qed.

Lemma lstrip_app a b : lstrip a = a -> a <> EmptyString -> lstrip (a ++ b) = a ++ b.
Proof.
  intros Ha Hne. apply lstrip_first_not_space in Ha.
  destruct a as [|x r]; [done|]. simpl. by rewrite Ha.
Qed.

(** A trimmed, non-empty name and value survive [strip] of ["name=value"]. *)
Lemma strip_fmt n v :
  strip n = n -> strip v = v -> n <> EmptyString -> v <> EmptyString ->
  strip (n ++ "=" ++ v) = n ++ "=" ++ v.
Proof.
  intros Hn Hv Hn0 Hv0. unfold strip.
  assert (Hln : lstrip n = n) by (rewrite <- Hn; apply lstrip_strip).
  assert (Hrv : rstrip v = v) by (rewrite <- Hv; apply rstrip_strip).
  rewrite lstrip_app by done.
  rewrite rstrip_app.
  - change ("=" ++ v) with (String "=" EmptyString ++ v). rewrite rstrip_app; rewrite Hrv; done.
  - change ("=" ++ v) with (String "=" EmptyString ++ v). rewrite rstrip_app; rewrite Hrv; done.
Qed.

Lemma split_once_fmt n v :
  has_char "=" n = false -> split_once "=" (n ++ "=" ++ v) = (n, v).
Proof.
  induction n as [|x n IH]; simpl; [reflexivity|].
  intros H. apply orb_false_iff in H as [Hx Hn]. rewrite Hx, IH by exact Hn. reflexivity.
Qed.

Lemma split_on_nochar c a : has_char c a = false -> split_on c a = [a].
Proof.
  induction a as [|x a IH]; simpl; [done|].
  intros H. apply orb_false_iff in H as [Hx Ha]. unfold ceq in *.
  rewrite Hx, IH by exact Ha. reflexivity.
Qed.

Lemma split_on_app c a b :
  has_char c a = false -> split_on c (a ++ String c b) = a :: split_on c b.
Proof.
  induction a as [|x a IH]; simpl; intros H.
  - unfold ceq. by rewrite Ascii.eqb_refl.
  - apply orb_false_iff in H as [Hx Ha]. unfold ceq in *.
    rewrite Hx, IH by exact Ha. reflexivity.
Qed.

(** Splitting a ["; "]-joined list on [;] gives back the items, each but the
    first with the blank of the separator in front. *)
Lemma split_join pre x r :
  has_char ";" pre = false ->
  Forall (fun y => has_char ";" y = false) (x :: r) ->
  split_on ";" (pre ++ join "; " (x :: r)) = (pre ++ x) :: map (fun y => " " ++ y) r.
Proof.
  revert pre x. induction r as [|y r IH]; intros pre x Hpre Hall.
  - inversion Hall; subst. simpl. apply split_on_nochar. rewrite has_char_app, Hpre. done.
  - inversion Hall as [|? ? Hx Hr]; subst.
    change (join "; " (x :: y :: r)) with (x ++ "; " ++ join "; " (y :: r)).
    rewrite <- str_app_assoc.
    change ("; " ++ join "; " (y :: r)) with (String ";" (" " ++ join "; " (y :: r))).
    rewrite split_on_app by (rewrite has_char_app, Hpre; done).
    rewrite IH by done. reflexivity.
Qed.

(** *** The loop of [extract_cookie_info] on the cookie string *)

Definition good_pair (p : string * string) : Prop :=
  strip p.1 = p.1 /\ strip p.2 = p.2 /\ p.1 <> EmptyString /\ p.2 <> EmptyString /\
  has_char "=" p.1 = false.

Lemma extract_loop_fmt p rest m :
  good_pair p -> extract_loop (fmt_pair p :: rest) m = extract_loop rest (<[p.1 := p.2]> m).
Proof.
  intros (Hn & Hv & Hn0 & Hv0 & He). simpl. unfold fmt_pair.
  rewrite strip_fmt by done.
  rewrite has_char_app. simpl. rewrite orb_true_r. simpl.
  rewrite split_once_fmt by done. by rewrite Hn, Hv.
Qed.

Lemma extract_loop_fmts ps m :
  Forall good_pair ps ->
  extract_loop (map (fun y => " " ++ y) (map fmt_pair ps)) m =
  fold_left (fun m p => <[p.1 := p.2]> m) ps m.
Proof.
  revert m. induction ps as [|p ps IH]; intros m Hall; simpl; [done|].
  inversion Hall; subst.
  change (strip (" " ++ fmt_pair p)) with (strip (fmt_pair p)).
  pose proof (extract_loop_fmt p (map (fun y => " " ++ y) (map fmt_pair ps)) m H1) as E.
  simpl in E. rewrite E. by apply IH.
Qed.

Lemma fold_insert_notin ps (m : gmap string string) n :
  n ∉ map fst ps -> fold_left (fun m p => <[p.1 := p.2]> m) ps m !! n = m !! n.
Proof.
  revert m. induction ps as [|[k w] ps IH]; intros m Hn; simpl; [done|].
  rewrite IH by (intros Hin; apply Hn; right; exact Hin).
  apply lookup_insert_ne. intros ->. apply Hn. left.
Qed.

Lemma dict_of_pairs_last ps1 n v ps2 :
  n ∉ map fst ps2 -> dict_of_pairs (ps1 ++ (n, v) :: ps2)%list !! n = Some v.
Proof.
  intros Hn. unfold dict_of_pairs. rewrite fold_left_app. simpl.
  rewrite fold_insert_notin by exact Hn. apply lookup_insert_eq.
Qed.

Lemma valid_pairs_good l :
  Forall (fun p => strip p.1 = p.1 /\ strip p.2 = p.2 /\ p.1 <> EmptyString /\ p.2 <> EmptyString)
    (valid_pairs l).
Proof.
  induction l as [|e l IH]; simpl; [constructor|].
  destruct (entry_pair e) as [p|] eqn:He; [|exact IH].
  constructor; [|exact IH].
  destruct e; try discriminate. unfold entry_pair in He.
  destruct (dict_get "name" (JStr "") kvs); try discriminate.
  destruct (dict_get "value" (JStr "") kvs); try discriminate.
  destruct (String.eqb (strip s) "") eqn:H1; [discriminate|].
  destruct (String.eqb (strip s0) "") eqn:H2; [discriminate|].
  simpl in He. injection He as <-. simpl.
  rewrite !strip_idem. apply String.eqb_neq in H1, H2. done.
Qed.

Lemma surviving_pairs_good b l :
  Forall (fun p => strip p.1 = p.1 /\ strip p.2 = p.2 /\ p.1 <> EmptyString /\ p.2 <> EmptyString)
    (surviving_pairs b l).
Proof.
  unfold surviving_pairs. apply List.Forall_forall. intros p Hp.
  apply filter_In in Hp as [Hp _]. revert p Hp. apply List.Forall_forall, valid_pairs_good.
Qed.

(** *** Digits, login and the session store *)

Lemma take_digits_app d ch r :
  all_digits d = true -> is_digit ch = false -> take_digits (d ++ String ch r) = (d, String ch r).
Proof.
  unfold all_digits. induction d as [|x d IH]; simpl; intros Hd Hch.
  - by rewrite Hch.
  - apply andb_true_iff in Hd as [Hx Hd]. rewrite Hx, IH by done. reflexivity.
Qed.

Lemma take_digits_spec s d r :
  take_digits s = (d, r) ->
  s = d ++ r /\ all_digits d = true /\
  match r with String c _ => is_digit c = false | EmptyString => True end.
Proof.
  unfold all_digits. revert d r. induction s as [|x s IH]; simpl; intros d r H.
  - injection H as <- <-. done.
  - destruct (is_digit x) eqn:Hx.
    + destruct (take_digits s) as [d' r'] eqn:E. injection H as <- <-.
      destruct (IH d' r' eq_refl) as (-> & Hd & Hr). simpl. rewrite Hx, Hd. done.
    + injection H as <- <-. simpl. done.
Qed.

Lemma rstrip_empty_no_char c t :
  is_space c = false -> rstrip t = EmptyString -> has_char c t = false.
Proof.
  intros Hc. induction t as [|x t IH]; [done|].
  rewrite rstrip_cons. destruct (rstrip t) eqn:Ht; [|discriminate].
  destruct (is_space x) eqn:Hx; [|discriminate]. intros _. simpl.
  rewrite IH by done. unfold ceq. destruct (Ascii.eqb_spec x c); [subst; congruence|done].
Qed.

Lemma blank_cookie_no_sessionid cookie :
  strip cookie = EmptyString -> extract_cookie_info cookie !! "sessionid" = None.
Proof.
  intros H. rewrite extract_cookie_info_no_eq_sign; [apply lookup_empty|].
  rewrite <- (has_char_lstrip "=" cookie) by reflexivity.
  apply rstrip_empty_no_char; [reflexivity|exact H].
Qed.

Lemma contains_has_char c p s : contains (String c p) s = true -> has_char c s = true.
Proof.
  induction s as [|x s IH]; simpl; [done|].
  unfold ceq. destruct (Ascii.eqb c x) eqn:Hcx.
  - intros _. apply Ascii.eqb_eq in Hcx. subst. by rewrite Ascii.eqb_refl.
  - intros H. rewrite IH by exact H. apply orb_true_r.
Qed.

Lemma string_of_uint_no_s u : has_char "s" (NilEmpty.string_of_uint u) = false.
Proof. induction u; simpl; try exact IHu; reflexivity. Qed.

Lemma N_to_string_not_cookie n : is_cookie_string (N_to_string n) = false.
Proof.
  unfold is_cookie_string. destruct (contains "sessionid=" (N_to_string n)) eqn:H; [|done].
  apply contains_has_char in H. unfold N_to_string, NilZero.string_of_uint in H.
  destruct (N.to_uint n); try discriminate; rewrite string_of_uint_no_s in H; discriminate.
Qed.

Lemma N_to_string_nonempty n : N_to_string n <> EmptyString.
Proof.
  unfold N_to_string, NilZero.string_of_uint. destruct (N.to_uint n); simpl; discriminate.
Qed.

Lemma auto_dump_settings_index cl st dir st' uid :
  auto_dump_settings cl st = Some (dir, st') ->
  settings_user_id (settings cl) = Some uid ->
  index st' !! username cl = Some dir /\ index st' !! uid = Some dir /\
  files st' !! dir = Some (settings cl).
Proof.
  unfold auto_dump_settings. intros H Hu. rewrite Hu in H.
  destruct (String.eqb (username cl) EmptyString); [discriminate|].
  injection H as <- <-. simpl. split; [|split].
  - destruct (decide (uid = username cl)) as [->|Hne].
    + apply lookup_insert_eq.
    + rewrite lookup_insert_ne by done. apply lookup_insert_eq.
  - apply lookup_insert_eq.
  - apply lookup_insert_eq.
Qed.

Lemma restore_settings_key st ident key dir :
  resolve_key ident = Some key -> index st !! key = Some dir ->
  restore_settings st ident = files st !! dir.
Proof. unfold restore_settings. intros -> ->. reflexivity. Qed.

(** *** More string facts *)

Lemma split_on_nonempty c s : split_on c s <> [].
Proof.
  destruct s as [|x s]; simpl; [done|].
  destruct (ceq x c); [done|]. destruct (split_on c s); done.
Qed.

Lemma split_on_app_sep c a b : split_on c (a ++ String c b) = (split_on c a ++ split_on c b)%list.
Proof.
  induction a as [|x a IH]; str_simpl; simpl.
  - unfold ceq. by rewrite Ascii.eqb_refl.
  - rewrite IH. destruct (ceq x c); [reflexivity|].
    destruct (split_on c a) eqn:E; [by apply split_on_nonempty in E|reflexivity].
Qed.

Lemma split_on_no_sep c s : Forall (fun p => has_char c p = false) (split_on c s).
Proof.
  induction s as [|x s IH]; simpl; [repeat constructor|].
  destruct (ceq x c) eqn:Hx; [by constructor|].
  destruct (split_on c s) as [|h t] eqn:E.
  - repeat constructor. simpl. by rewrite Hx.
  - inversion IH; subst. constructor; [simpl; by rewrite Hx|done].
Qed.

Lemma split_once_fst c s : has_char c (fst (split_once c s)) = false.
Proof.
  induction s as [|x s IH]; simpl; [done|].
  destruct (ceq x c) eqn:Hx; [done|].
  destruct (split_once c s) as [a b]. simpl in *. by rewrite Hx, IH.
Qed.

Lemma split_once_chars d c s :
  has_char d (fst (split_once c s)) = true \/ has_char d (snd (split_once c s)) = true ->
  has_char d s = true.
Proof.
  induction s as [|x s IH]; simpl; [by intros [H|H]|].
  destruct (ceq x c).
  - intros [H|H]; [discriminate|]. simpl in H. by rewrite H, orb_true_r.
  - destruct (split_once c s) as [a b] eqn:E. simpl. intros [H|H].
    + apply orb_true_iff in H as [H|H]; [by rewrite H|]. rewrite IH; [apply orb_true_r|by left].
    + rewrite IH; [apply orb_true_r|by right].
Qed.

Lemma has_char_lstrip_any c s : has_char c (lstrip s) = true -> has_char c s = true.
Proof.
  induction s as [|x s IH]; simpl; [done|].
  destruct (is_space x); [|done]. intros H. by rewrite IH, orb_true_r.
Qed.

Lemma has_char_strip_any c s : has_char c (strip s) = true -> has_char c s = true.
Proof. unfold strip. intros H. by apply has_char_lstrip_any, has_char_rstrip. Qed.

Lemma has_char_strip_false c s : has_char c s = false -> has_char c (strip s) = false.
Proof.
  intros H. destruct (has_char c (strip s)) eqn:E; [|done].
  apply has_char_strip_any in E. congruence.
Qed.

Lemma rstrip_nonspace c r : is_space c = false -> rstrip (String c r) = String c (rstrip r).
Proof. intros Hc. rewrite rstrip_cons. destruct (rstrip r); [by rewrite Hc|reflexivity]. Qed.

Lemma strip_fmt_gen n v :
  strip n = n -> strip v = v -> strip (n ++ "=" ++ v) = n ++ "=" ++ v.
Proof.
  intros Hn Hv. unfold strip.
  assert (Hln : lstrip n = n) by (rewrite <- Hn; apply lstrip_strip).
  assert (Hrv : rstrip v = v) by (rewrite <- Hv; apply rstrip_strip).
  assert (Hr : rstrip ("=" ++ v) = "=" ++ v).
  { change ("=" ++ v) with (String "=" v). rewrite rstrip_nonspace by reflexivity.
    by rewrite Hrv. }
  destruct n as [|x n'].
  - str_simpl. change ("=" ++ v) with (String "=" v). simpl lstrip.
    change (String "=" v) with ("=" ++ v). exact Hr.
  - rewrite lstrip_app by done. rewrite rstrip_app; rewrite Hr; [done|].
    change ("=" ++ v) with (String "=" v). done.
Qed.

(** *** The loop of [extract_cookie_info] *)

Lemma extract_loop_app l1 l2 m :
  extract_loop (l1 ++ l2) m = extract_loop l2 (extract_loop l1 m).
Proof.
  revert m. induction l1 as [|p l1 IH]; intros m; simpl; [done|].
  destruct (negb (has_char "=" (strip p))); [apply IH|].
  destruct (split_once "=" (strip p)). apply IH.
Qed.

Lemma extract_loop_union segs m : extract_loop segs m = extract_loop segs ∅ ∪ m.
Proof.
  revert m. induction segs as [|p segs IH]; intros m; simpl.
  - by rewrite map_empty_union.
  - destruct (negb (has_char "=" (strip p))); [apply IH|].
    destruct (split_once "=" (strip p)) as [key value].
    rewrite (IH (<[_:=_]> m)), (IH (<[_:=_]> ∅)).
    rewrite <- map_union_assoc. f_equal.
    by rewrite insert_union_singleton_l, insert_empty.
Qed.

Lemma extract_loop_bindings segs m :
  Forall (fun p => has_char ";" p = false) segs ->
  map_Forall binding_ok m -> map_Forall binding_ok (extract_loop segs m).
Proof.
  revert m. induction segs as [|p segs IH]; intros m Hsegs Hm; simpl; [done|].
  inversion Hsegs as [|? ? Hp Hrest]; subst.
  destruct (negb (has_char "=" (strip p))); [by apply IH|].
  destruct (split_once "=" (strip p)) as [key value] eqn:E.
  apply IH; [done|]. apply map_Forall_insert_2; [|done].
  pose proof (split_once_fst "=" (strip p)) as Hk. rewrite E in Hk. simpl in Hk.
  assert (Hsp : has_char ";" (strip p) = false) by (by apply has_char_strip_false).
  assert (Hkey : has_char ";" key = false).
  { destruct (has_char ";" key) eqn:H; [|done].
    assert (has_char ";" (strip p) = true)
      by (apply (split_once_chars ";" "="); rewrite E; by left).
    congruence. }
  assert (Hval : has_char ";" value = false).
  { destruct (has_char ";" value) eqn:H; [|done].
    assert (has_char ";" (strip p) = true)
      by (apply (split_once_chars ";" "="); rewrite E; by right).
    congruence. }
  unfold binding_ok. rewrite !strip_idem.
  repeat split; try done; by apply has_char_strip_false.
Qed.

Lemma extract_cookie_info_bindings_ok s : map_Forall binding_ok (extract_cookie_info s).
Proof. apply extract_loop_bindings; [apply split_on_no_sep|apply map_Forall_empty]. Qed.

Lemma extract_loop_fmt_gen p rest m :
  binding_ok p.1 p.2 ->
  extract_loop (fmt_pair p :: rest) m = extract_loop rest (<[p.1 := p.2]> m).
Proof.
  intros (Hn & Hv & He & _ & _). simpl. unfold fmt_pair.
  rewrite strip_fmt_gen by done.
  rewrite !has_char_app. simpl. rewrite orb_true_r. simpl.
  rewrite split_once_fmt by done. by rewrite Hn, Hv.
Qed.

Lemma extract_loop_fmts_gen ps m :
  Forall (fun p => binding_ok p.1 p.2) ps ->
  extract_loop (map (fun y => " " ++ y) (map fmt_pair ps)) m =
  fold_left (fun m p => <[p.1 := p.2]> m) ps m.
Proof.
  revert m. induction ps as [|p ps IH]; intros m Hall; simpl; [done|].
  inversion Hall; subst.
  change (strip (" " ++ fmt_pair p)) with (strip (fmt_pair p)).
  pose proof (extract_loop_fmt_gen p (map (fun y => " " ++ y) (map fmt_pair ps)) m H1) as E.
  simpl in E. rewrite E. by apply IH.
Qed.

Lemma fmap_fst_map (l : list (string * string)) : l.*1 = map fst l.
Proof. induction l as [|p l IH]; simpl; [done|]. by rewrite <- IH. Qed.

Lemma dict_of_map_to_list (m : gmap string string) : dict_of_pairs (map_to_list m) = m.
Proof.
  apply map_eq. intros i. unfold dict_of_pairs.
  destruct (m !! i) as [x|] eqn:Hi.
  - apply elem_of_map_to_list in Hi. apply list_elem_of_split in Hi as (l1 & l2 & Hl).
    pose proof (NoDup_fst_map_to_list m) as Hnd. rewrite Hl in Hnd.
    rewrite fmap_app in Hnd. simpl in Hnd.
    apply NoDup_app in Hnd as (_ & _ & Hnd). apply NoDup_cons in Hnd as [Hn _].
    rewrite Hl. apply dict_of_pairs_last. by rewrite <- fmap_fst_map.
  - rewrite fold_insert_notin; [apply lookup_empty|].
    rewrite list_elem_of_In. intros Hin.
    apply in_map_iff in Hin as ([k y] & Hk & Hin). simpl in Hk. subst k.
    apply list_elem_of_In, elem_of_map_to_list in Hin. congruence.
Qed.

(** Formatting a map's bindings as a cookie string and parsing it back. *)
Lemma extract_join_map_to_list (m : gmap string string) :
  map_Forall binding_ok m ->
  extract_cookie_info (join "; " (map fmt_pair (map_to_list m))) = m.
Proof.
  intros Hm.
  assert (Hall : Forall (fun p => binding_ok p.1 p.2) (map_to_list m)).
  { apply List.Forall_forall. intros [k v] Hin. simpl.
    apply list_elem_of_In, elem_of_map_to_list in Hin. by apply Hm. }
  rewrite <- (dict_of_map_to_list m) at 2.
  destruct (map_to_list m) as [|p ps] eqn:Hl; [reflexivity|].
  unfold extract_cookie_info. simpl map.
  rewrite <- (str_app_nil_l (join "; " (fmt_pair p :: map fmt_pair ps))).
  rewrite split_join.
  - rewrite str_app_nil_l. inversion Hall as [|? ? Hp Hps]; subst.
    rewrite extract_loop_fmt_gen by exact Hp. rewrite extract_loop_fmts_gen by exact Hps.
    reflexivity.
  - reflexivity.
  - apply List.Forall_forall. intros y Hy.
    change (fmt_pair p :: map fmt_pair ps) with (map fmt_pair (p :: ps)) in Hy.
    apply in_map_iff in Hy as (q & <- & Hq).
    rewrite List.Forall_forall in Hall. destruct (Hall q Hq) as (_ & _ & _ & H1 & H2).
    unfold fmt_pair. rewrite !has_char_app, H1, H2. reflexivity.
Qed.

(** *** Concatenating cookie arrays *)

Lemma collect_pairs_app b l1 l2 :
  collect_pairs b (l1 ++ l2) =
    let* p1 := collect_pairs b l1 in let* p2 := collect_pairs b l2 in Ok (p1 ++ p2)%list.
Proof.
  induction l1 as [|e l1 IH]; simpl.
  - by destruct (collect_pairs b l2).
  - destruct e; try exact IH.
    destruct (py_strip (dict_get "name" (JStr "") kvs)) as [name|err]; simpl; [|reflexivity].
    destruct (py_strip (dict_get "value" (JStr "") kvs)) as [value|err]; simpl; [|reflexivity].
    destruct (String.eqb name "" || String.eqb value ""); [exact IH|].
    destruct (negb b && negb (is_essential name)); [exact IH|].
    rewrite IH. destruct (collect_pairs b l1) as [p1|err]; simpl; [|reflexivity].
    destruct (collect_pairs b l2); reflexivity.
Qed.

Lemma join_app sep a b :
  a <> [] -> b <> [] -> join sep (a ++ b)%list = join sep a ++ sep ++ join sep b.
Proof.
  intros Ha Hb. induction a as [|x a IH]; [done|].
  destruct a as [|y a].
  - simpl. destruct b; [done|reflexivity].
  - change (join sep ((x :: y :: a) ++ b)%list) with (x ++ sep ++ join sep ((y :: a) ++ b)%list).
    change (join sep (x :: y :: a)) with (x ++ sep ++ join sep (y :: a)).
    rewrite IH by done. rewrite !str_app_assoc. reflexivity.
Qed.

(** *** Shape of the cookie string *)

Lemma join_fmt_head p ps :
  exists t, join "; " (map fmt_pair (p :: ps)) = p.1 ++ t.
Proof.
  destruct ps as [|q ps].
  - exists ("=" ++ p.2). reflexivity.
  - exists (("=" ++ p.2) ++ "; " ++ join "; " (map fmt_pair (q :: ps))).
    change (join "; " (map fmt_pair (p :: q :: ps)))
      with (fmt_pair p ++ "; " ++ join "; " (map fmt_pair (q :: ps))).
    unfold fmt_pair at 1. rewrite !str_app_assoc. reflexivity.
Qed.

Lemma join_fmt_nonempty p ps : pair_ok p -> join "; " (map fmt_pair (p :: ps)) <> EmptyString.
Proof.
  intros (_ & _ & Hn & _). destruct (join_fmt_head p ps) as [t ->].
  destruct p as [[|x n] v]; [done|]. simpl. discriminate.
Qed.

Lemma rstrip_join ps :
  ps <> [] -> Forall pair_ok ps ->
  rstrip (join "; " (map fmt_pair ps)) = join "; " (map fmt_pair ps).
Proof.
  induction ps as [|p ps IH]; intros Hne Hall; [done|].
  inversion Hall as [|? ? Hp Hps]; subst.
  destruct ps as [|q ps].
  - change (join "; " (map fmt_pair [p])) with (fmt_pair p). unfold fmt_pair.
    destruct Hp as (Hn & Hv & Hn0 & Hv0).
    rewrite <- (strip_fmt p.1 p.2) by done. apply rstrip_strip.
  - change (join "; " (map fmt_pair (p :: q :: ps)))
      with (fmt_pair p ++ "; " ++ join "; " (map fmt_pair (q :: ps))).
    inversion Hps as [|? ? Hq _]; subst.
    pose proof (join_fmt_nonempty q ps Hq) as HJ.
    assert (E : rstrip ("; " ++ join "; " (map fmt_pair (q :: ps)))
                = "; " ++ join "; " (map fmt_pair (q :: ps))).
    { change ("; " ++ join "; " (map fmt_pair (q :: ps)))
        with (String ";" (String " " (join "; " (map fmt_pair (q :: ps))))).
      rewrite rstrip_nonspace by reflexivity. rewrite rstrip_cons, IH by done.
      destruct (join "; " (map fmt_pair (q :: ps))); [done|reflexivity]. }
    rewrite rstrip_app; rewrite E; [reflexivity|].
    change ("; " ++ join "; " (map fmt_pair (q :: ps)))
      with (String ";" (String " " (join "; " (map fmt_pair (q :: ps))))). done.
Qed.

Lemma surviving_pairs_ok b l : Forall pair_ok (surviving_pairs b l).
Proof. exact (surviving_pairs_good b l). Qed.

(** *** Batch parsing of a cookie file *)

Lemma parse_all_lines_ok b lines rs :
  parse_all_lines b lines = Ok rs ->
  rs = ok_results (map (fun l => parse_browser_cookies_json (Raw l) b) lines).
Proof.
  revert rs. induction lines as [|l lines IH]; intros rs H; simpl in *.
  - by injection H as <-.
  - destruct (parse_browser_cookies_json (Raw l) b) as [c|e].
    + destruct (parse_all_lines b lines) as [tl|e] eqn:E; simpl in H; [|discriminate].
      injection H as <-. f_equal. by apply IH.
    + destruct (is_value_error e); [by apply IH|discriminate].
Qed.

Lemma parse_all_lines_value_errors b lines :
  (forall l e, In l lines -> parse_browser_cookies_json (Raw l) b = Raise e ->
     is_value_error e = true) ->
  parse_all_lines b lines =
    Ok (ok_results (map (fun l => parse_browser_cookies_json (Raw l) b) lines)).
Proof.
  induction lines as [|l lines IH]; intros Hv; simpl; [done|].
  rewrite IH by (intros l' e Hin; apply Hv; by right).
  destruct (parse_browser_cookies_json (Raw l) b) as [c|e] eqn:E; simpl; [reflexivity|].
  by rewrite (Hv l e (or_introl eq_refl) E).
Qed.

Lemma ok_results_in f (lines : list string) r :
  In r (ok_results (map f lines)) ->
  exists i, (i < length lines)%nat /\ f (nth i lines EmptyString) = Ok r.
Proof.
  induction lines as [|l lines IH]; simpl; [done|].
  destruct (f l) as [c|e] eqn:E; simpl.
  - intros [<-|Hin]; [by exists 0%nat; split; [lia|]|].
    destruct (IH Hin) as (i & Hi & Hf). exists (S i). split; [lia|exact Hf].
  - intros Hin. destruct (IH Hin) as (i & Hi & Hf). exists (S i). split; [lia|exact Hf].
Qed.

(** *** Lines of a cookie file *)

Lemma split_when_pieces p s :
  Forall (fun piece => forall c, p c = true -> has_char c piece = false) (split_when p s).
Proof.
  induction s as [|x s IH]; simpl; [repeat constructor|].
  destruct (p x) eqn:Hx; [by constructor|].
  assert (Hxc : forall c, p c = true -> ceq x c = false).
  { intros c Hc. unfold ceq. destruct (Ascii.eqb_spec x c); [subst; congruence|done]. }
  destruct (split_when p s) as [|h t] eqn:E.
  - repeat constructor. intros c Hc. simpl. by rewrite Hxc.
  - inversion IH as [|? ? Hh Ht]; subst. constructor; [|done].
    intros c Hc. simpl. by rewrite Hxc, Hh.
Qed.

Lemma file_lines_ok contents :
  Forall (fun l => l <> EmptyString /\ strip l = l /\
                   has_char "010" l = false /\ has_char "013" l = false)
    (file_lines contents).
Proof.
  unfold file_lines. apply List.Forall_forall. intros l Hin.
  apply filter_In in Hin as [Hin Hne]. apply in_map_iff in Hin as (piece & <- & Hp).
  pose proof (split_when_pieces (fun c => ceq c "010" || ceq c "013") contents) as Hall.
  rewrite List.Forall_forall in Hall. specialize (Hall piece Hp).
  split; [|split; [apply strip_idem|split]].
  - apply negb_true_iff, String.eqb_neq in Hne. exact Hne.
  - apply has_char_strip_false, Hall. reflexivity.
  - apply has_char_strip_false, Hall. reflexivity.
Qed.

(** *** [extract_sessionid_only] *)

Lemma prefix_app p t : String.prefix p t = true -> exists r, t = p ++ r.
Proof.
  revert t. induction p as [|a p IH]; intros t H; [by exists t|].
  destruct t as [|b t]; simpl in H; [discriminate|].
  destruct (ascii_dec a b) as [->|]; [|discriminate].
  destruct (IH t H) as [r ->]. by exists r.
Qed.

Lemma sessionid_loop_found segs v :
  sessionid_loop segs = Some v ->
  exists pre seg post, segs = (pre ++ seg :: post)%list /\ strip seg = "sessionid=" ++ v.
Proof.
  induction segs as [|seg segs IH]; simpl; [discriminate|].
  destruct (String.prefix "sessionid=" (strip seg)) eqn:Hp.
  - intros H. injection H as <-. apply prefix_app in Hp as [r Hr].
    exists [], seg, segs. split; [reflexivity|]. rewrite Hr.
    change ("sessionid=" ++ r) with ("sessionid" ++ "=" ++ r).
    rewrite split_once_fmt by reflexivity. reflexivity.
  - intros H. destruct (IH H) as (pre & s & post & -> & Hs). by exists (seg :: pre), s, post.
Qed.

Lemma str_app_cancel a x y : a ++ x = a ++ y -> x = y.
Proof. induction a as [|c a IH]; str_simpl; [done|]. intros H. injection H. exact IH. Qed.

Lemma rstrip_sessionid v : rstrip ("sessionid=" ++ v) = "sessionid=" ++ rstrip v.
Proof. str_simpl. rewrite !rstrip_nonspace by reflexivity. reflexivity. Qed.

Lemma lstrip_sessionid v : lstrip ("sessionid=" ++ v) = "sessionid=" ++ v.
Proof. str_simpl. reflexivity. Qed.

Lemma extract_loop_sessionid seg v m :
  strip seg = "sessionid=" ++ v ->
  extract_loop [seg] m = <["sessionid" := strip v]> m.
Proof.
  intros Hs. simpl. rewrite Hs, has_char_app. simpl. reflexivity.
Qed.

Lemma extract_loop_is_Some segs m k :
  is_Some (m !! k) -> is_Some (extract_loop segs m !! k).
Proof.
  revert m. induction segs as [|p segs IH]; intros m Hk; simpl; [done|].
  destruct (negb (has_char "=" (strip p))); [by apply IH|].
  destruct (split_once "=" (strip p)). apply IH.
  apply lookup_insert_is_Some'. by right.
Qed.

(** *** The [include_all] flag *)

Lemma collect_pairs_essential l :
  Forall (fun p => is_essential p.1 = true) (valid_pairs l) ->
  collect_pairs false l = collect_pairs true l.
Proof.
  induction l as [|e l IH]; intros Hf; simpl in *; [done|].
  destruct e; simpl in Hf; try (apply IH; exact Hf).
  unfold entry_pair in Hf.
  destruct (dict_get "name" (JStr "") kvs) as [| | |n| |]; simpl; try reflexivity.
  destruct (dict_get "value" (JStr "") kvs) as [| | |v| |]; simpl; try reflexivity.
  destruct (String.eqb (strip n) "" || String.eqb (strip v) "") eqn:Hnv; [by apply IH|].
  inversion Hf as [|? ? He Hl]; subst. simpl in He. rewrite He. simpl.
  by rewrite IH.
Qed.

Lemma sessionid_loop_app l1 l2 :
  sessionid_loop (l1 ++ l2) =
    match sessionid_loop l1 with Some v => Some v | None => sessionid_loop l2 end.
Proof.
  induction l1 as [|p l1 IH]; simpl; [done|].
  destruct (String.prefix "sessionid=" (strip p)); [done|exact IH].
Qed.


(* ================================================================== *)
(** * Claims *)

(** ** C10 *)

(** C10: [extract_cookie_info] is total (a Rocq function to a map); a
    segment whose trimmed text has no [=] contributes nothing, so the empty
    string and any string without [=] give the empty mapping. *)
Theorem extract_cookie_info_total :
  (forall s, has_char "=" s = false -> extract_cookie_info s = ∅) /\
  extract_cookie_info "" = ∅ /\
  (forall segs m,
     extract_loop segs m = extract_loop (List.filter (fun p => has_char "=" (strip p)) segs) m).
Proof.
  split; [exact extract_cookie_info_no_eq_sign|]. split; [reflexivity|].
  exact extract_loop_filter.
Qed.

Lemma extract_cookie_info_total_witness :
  has_char "=" "a; b ;c" = false /\ extract_cookie_info "a; b ;c" = ∅.
Proof.
  split; [reflexivity|]. apply (proj1 extract_cookie_info_total). reflexivity.
Defined.

(** ** C7 *)

(** C7: [get_sessionid_from_json] never raises: it returns the ['value'] of
    the first entry named ['sessionid'], and [None] when the text is not
    valid JSON, the decoded value is not a list, or no entry is named
    ['sessionid']. *)
Theorem get_sessionid_from_json_spec :
  (forall json_data,
     get_sessionid_from_json json_data =
       match decoded json_data with
       | Some (JArr l) =>
           match first_sessionid_entry l with
           | Some kvs => dict_get "value" JNull kvs
           | None => JNull
           end
       | _ => JNull
       end) /\
  (forall s, json_loads s = None -> get_sessionid_from_json (Raw s) = JNull) /\
  (forall json_data v, decoded json_data = Some v -> (forall l, v <> JArr l) ->
     get_sessionid_from_json json_data = JNull) /\
  (forall json_data l, decoded json_data = Some (JArr l) -> first_sessionid_entry l = None ->
     get_sessionid_from_json json_data = JNull).
Proof.
  assert (Heq : forall json_data,
     get_sessionid_from_json json_data =
       match decoded json_data with
       | Some (JArr l) =>
           match first_sessionid_entry l with
           | Some kvs => dict_get "value" JNull kvs
           | None => JNull
           end
       | _ => JNull
       end).
  { intros [s|v]; simpl.
    - destruct (json_loads s) as [[]|]; try reflexivity. apply find_sessionid_spec.
    - destruct v; try reflexivity. apply find_sessionid_spec. }
  split; [exact Heq|]. split; [|split].
  - intros s Hs. rewrite Heq. simpl. by rewrite Hs.
  - intros json_data v Hd Hv. rewrite Heq, Hd. destruct v; try reflexivity.
    exfalso. by apply (Hv l).
  - intros json_data l Hd Hl. by rewrite Heq, Hd, Hl.
Qed.

Lemma get_sessionid_from_json_spec_witness :
  get_sessionid_from_json (Raw "not json") = JNull /\
  get_sessionid_from_json (Raw "{}") = JNull /\
  get_sessionid_from_json (Raw (dq "[{'name':'mid','value':'x'}]")) = JNull /\
  get_sessionid_from_json
    (Raw (dq "[{'name':'mid','value':'x'},{'name':'sessionid','value':'123%3Axxx'}]"))
  = JStr "123%3Axxx".
Proof.
  destruct get_sessionid_from_json_spec as (Heq & Hbad & Hnl & Hnone).
  split; [apply Hbad; reflexivity|]. split.
  { apply (Hnl _ (JObj [])); [reflexivity|discriminate]. }
  split.
  - apply (Hnone _ [JObj [("name", JStr "mid"); ("value", JStr "x")]]); reflexivity.
  - rewrite Heq. reflexivity.
Defined.

(** ** C5 *)

(** C5: [parse_cookies_file] raises [FileNotFoundError] (NotFound) for a
    missing file, [ValueError] "No cookie data" (InvalidFormat) when the file
    has no non-blank line, and [ValueError] "out of range" (OutOfRange) when
    [line_number] is outside [[1, n]]; in range it returns the parse of that
    1-indexed non-blank line. *)
Theorem parse_cookies_file_line_errors : forall fs path line_number include_all,
  (fs !! path = None ->
     parse_cookies_file fs path line_number include_all = Raise FNF_CookieFile
     /\ kind FNF_CookieFile = NotFound) /\
  (forall contents, fs !! path = Some contents -> file_lines contents = [] ->
     parse_cookies_file fs path line_number include_all = Raise VE_NoCookieData
     /\ kind VE_NoCookieData = InvalidFormat) /\
  (forall contents n, fs !! path = Some contents -> file_lines contents <> [] ->
     (n < 1 \/ Z.of_nat (length (file_lines contents)) < n)%Z ->
     parse_cookies_file fs path (Some n) include_all = Raise VE_LineOutOfRange
     /\ kind VE_LineOutOfRange = OutOfRange) /\
  (forall contents n, fs !! path = Some contents ->
     (1 <= n <= Z.of_nat (length (file_lines contents)))%Z ->
     parse_cookies_file fs path (Some n) include_all =
       match parse_browser_cookies_json
               (Raw (nth (Z.to_nat (n - 1)) (file_lines contents) EmptyString)) include_all with
       | Ok c => Ok (inl c)
       | Raise e => Raise e
       end).
Proof.
  intros fs path line_number include_all. unfold parse_cookies_file.
  split; [|split; [|split]].
  - intros H. by rewrite H.
  - intros contents H Hl. by rewrite H, Hl.
  - intros contents n H Hl Hn. rewrite H.
    destruct (file_lines contents) as [|l0 ls] eqn:E; [done|].
    assert (Hb : ((n <? 1)%Z || (Z.of_nat (length (l0 :: ls)) <? n)%Z) = true).
    { apply orb_true_iff. destruct Hn; [left|right]; apply Z.ltb_lt; done. }
    by rewrite Hb.
  - intros contents n H Hn. rewrite H.
    destruct (file_lines contents) as [|l0 ls] eqn:E; [simpl in Hn; lia|].
    assert (Hb : ((n <? 1)%Z || (Z.of_nat (length (l0 :: ls)) <? n)%Z) = false).
    { apply orb_false_iff. split; apply Z.ltb_ge; lia. }
    rewrite Hb. simpl. reflexivity.
Qed.

Definition nl : string := String "010" EmptyString.

Definition two_line_file : string :=
  dq "[{'name':'sessionid','value':'1%3Aa'}]" ++ nl ++ "  " ++ nl ++
  dq "[{'name':'sessionid','value':'2%3Ab'},{'name':'mid','value':'m'}]" ++ nl.

Definition sample_fs : fsys := {[ "cookies.txt" := two_line_file ]}.

Lemma parse_cookies_file_line_errors_witness :
  parse_cookies_file sample_fs "missing.txt" None true = Raise FNF_CookieFile /\
  parse_cookies_file sample_fs "cookies.txt" (Some 3%Z) true = Raise VE_LineOutOfRange /\
  parse_cookies_file sample_fs "cookies.txt" (Some 2%Z) true = Ok (inl "sessionid=2%3Ab; mid=m").
Proof.
  destruct (parse_cookies_file_line_errors sample_fs "missing.txt" None true) as [Hm _].
  destruct (parse_cookies_file_line_errors sample_fs "cookies.txt" None true)
    as (_ & _ & Hout & Hin).
  split; [apply Hm; reflexivity|]. split.
  - apply (Hout two_line_file); [reflexivity|discriminate|right; vm_compute; reflexivity].
  - rewrite (Hin two_line_file); [vm_compute; reflexivity|reflexivity|vm_compute; split; discriminate].
Defined.

(** ** C6 *)

(** A cookie file whose first line has a numeric ['name']. *)
Definition bad_first_line_file : string :=
  dq "[{'name':1,'value':'x'}]" ++ nl ++ dq "[{'name':'a','value':'b'}]".

(** C6 (the batch loop catches only [ValueError]): on [bad_first_line_file]
    the second line parses to ["a=b"], yet [parse_cookies_file] without a
    line number propagates the [AttributeError] of the first line instead of
    skipping it. *)
Theorem parse_cookies_file_attribute_error_not_skipped :
  parse_browser_cookies_json (Raw (dq "[{'name':'a','value':'b'}]")) true = Ok "a=b" /\
  parse_browser_cookies_json (Raw (dq "[{'name':1,'value':'x'}]")) true = Raise AttributeError /\
  parse_cookies_file {[ "cookies.txt" := bad_first_line_file ]} "cookies.txt" None true
    = Raise AttributeError.
Proof. vm_compute. repeat split. Qed.

(** ** C2 *)

(** C2 counterexample: with [include_all = false] an entry with non-empty
    name and value but a non-essential name is dropped, and the call raises
    "No valid cookies found". *)
Lemma parse_non_essential_only_fails :
  entry_pair (JObj [("name", JStr "foo"); ("value", JStr "bar")]) = Some ("foo", "bar") /\
  decoded (Raw (dq "[{'name':'foo','value':'bar'}]"))
    = Some (JArr [JObj [("name", JStr "foo"); ("value", JStr "bar")]]) /\
  parse_browser_cookies_json (Raw (dq "[{'name':'foo','value':'bar'}]")) false
    = Raise VE_NoValidCookies.
Proof. vm_compute. repeat split. Qed.

(** ** C1 *)

(** C1 counterexample: two surviving entries named [a]; the round trip
    returns [a = 2] only, not the pair [(a, 1)]. *)
Lemma roundtrip_duplicate_name :
  parse_browser_cookies_json
    (Raw (dq "[{'name':'a','value':'1'},{'name':'a','value':'2'}]")) true = Ok "a=1; a=2" /\
  extract_cookie_info "a=1; a=2" !! "a" = Some "2" /\
  extract_cookie_info "a=1; a=2" !! "a" <> Some "1".
Proof. vm_compute. split; [reflexivity|]. split; [reflexivity|]. discriminate. Qed.

(** ** C9 *)

Definition bob1 : client := {| username := "bob"; settings := sample_settings "1" "first" |}.
Definition bob2 : client := {| username := "bob"; settings := sample_settings "2" "second" |}.

(** C9 counterexample: two accounts named [bob] (user ids 1 and 2) saved in
    turn go to [bob] and [bob_0]; the username key then names the second
    account, so for the first saved session the username and the user id
    resolve to different records. *)
Lemma restore_settings_shared_username :
  match dump_twice bob1 bob2 empty_store with
  | Some st =>
      index st = <["2" := "bob_0"]> (<["bob" := "bob_0"]> (<["1" := "bob"]> (<["bob" := "bob"]> ∅))) /\
      restore_settings st (IdInt 1) = Some (settings bob1) /\
      restore_settings st (IdStr "bob") = Some (settings bob2) /\
      restore_settings st (IdStr "bob") <> restore_settings st (IdInt 1)
  | None => False
  end.
Proof.
  vm_compute. split; [reflexivity|]. split; [reflexivity|]. split; [reflexivity|]. congruence.
Qed.

(** ** C3 *)

(** C3: an accepted input gives the ["name=value"] texts of the surviving
    entries (trimmed name and value), in input order, duplicates kept,
    joined by ["; "]. *)
Theorem parse_output_format : forall json_data include_all s,
  parse_browser_cookies_json json_data include_all = Ok s ->
  exists l, decoded json_data = Some (JArr l) /\
            s = join "; " (map fmt_pair (surviving_pairs include_all l)).
Proof.
  intros json_data include_all s H. apply parse_ok_iff in H as (l & Hd & _ & _ & Hs).
  by exists l.
Qed.

Lemma parse_output_format_witness :
  parse_browser_cookies_json
    (Raw (dq "[{'name':' a ','value':'1 '},{'name':'mid','value':'m'},{'name':'','value':'z'},{'name':'a','value':'2'}]"))
    true = Ok "a=1; mid=m; a=2" /\
  exists l, decoded
    (Raw (dq "[{'name':' a ','value':'1 '},{'name':'mid','value':'m'},{'name':'','value':'z'},{'name':'a','value':'2'}]"))
    = Some (JArr l) /\
    "a=1; mid=m; a=2" = join "; " (map fmt_pair (surviving_pairs true l)).
Proof.
  split; [vm_compute; reflexivity|]. apply parse_output_format. vm_compute. reflexivity.
Defined.

(** ** C4 *)

(** C4: with [include_all = false] the output is the [include_all = true]
    output restricted, in order, to the essential names; when the unfiltered
    call raises, so does the filtered one. *)
Theorem parse_essential_subset : forall json_data,
  (forall s', parse_browser_cookies_json json_data false = Ok s' ->
     exists ps,
       parse_browser_cookies_json json_data true = Ok (join "; " (map fmt_pair ps)) /\
       s' = join "; " (map fmt_pair (List.filter (fun p => is_essential p.1) ps)) /\
       Forall (fun p => is_essential p.1 = true) (List.filter (fun p => is_essential p.1) ps) /\
       incl (List.filter (fun p => is_essential p.1) ps) ps) /\
  (forall e, parse_browser_cookies_json json_data true = Raise e ->
     exists e', parse_browser_cookies_json json_data false = Raise e').
Proof.
  intros json_data.
  assert (Hsub : forall s', parse_browser_cookies_json json_data false = Ok s' ->
     exists ps,
       parse_browser_cookies_json json_data true = Ok (join "; " (map fmt_pair ps)) /\
       s' = join "; " (map fmt_pair (List.filter (fun p => is_essential p.1) ps)) /\
       Forall (fun p => is_essential p.1 = true) (List.filter (fun p => is_essential p.1) ps) /\
       incl (List.filter (fun p => is_essential p.1) ps) ps).
  { intros s' H. apply parse_ok_iff in H as (l & Hd & Hwt & Hne & ->).
    exists (surviving_pairs true l). rewrite <- surviving_pairs_essential.
    split; [|split; [reflexivity|split]].
    - apply parse_ok_iff. exists l. repeat split; try done.
      intros Ht. apply Hne. rewrite surviving_pairs_essential, Ht. reflexivity.
    - rewrite surviving_pairs_essential. apply List.Forall_forall.
      intros p Hp. apply filter_In in Hp. by destruct Hp.
    - rewrite surviving_pairs_essential. intros p Hp. apply filter_In in Hp. by destruct Hp. }
  split; [exact Hsub|].
  intros e He. destruct (parse_browser_cookies_json json_data false) as [s'|e'] eqn:Hf.
  - destruct (Hsub s' eq_refl) as (ps & Ht & _). congruence.
  - by exists e'.
Qed.

Lemma parse_essential_subset_witness :
  parse_browser_cookies_json
    (Raw (dq "[{'name':'foo','value':'1'},{'name':'sessionid','value':'9%3Ax'}]")) true
    = Ok "foo=1; sessionid=9%3Ax" /\
  parse_browser_cookies_json
    (Raw (dq "[{'name':'foo','value':'1'},{'name':'sessionid','value':'9%3Ax'}]")) false
    = Ok "sessionid=9%3Ax" /\
  exists ps,
    parse_browser_cookies_json
      (Raw (dq "[{'name':'foo','value':'1'},{'name':'sessionid','value':'9%3Ax'}]")) true
    = Ok (join "; " (map fmt_pair ps)) /\
    "sessionid=9%3Ax" = join "; " (map fmt_pair (List.filter (fun p => is_essential p.1) ps)).
Proof.
  split; [vm_compute; reflexivity|]. split; [vm_compute; reflexivity|].
  destruct (proj1 (parse_essential_subset
    (Raw (dq "[{'name':'foo','value':'1'},{'name':'sessionid','value':'9%3Ax'}]")))
    "sessionid=9%3Ax") as (ps & H1 & H2 & _); [vm_compute; reflexivity|].
  exists ps. split; assumption.
Defined.

(** ** C2, amended *)

(** C2 (amended): ["[]"], ["{}"], [""] and ["not json"] raise an
    InvalidFormat error; and when the entries' ['name'] and ['value'] are
    strings where present, the call raises (always an InvalidFormat error)
    exactly when the JSON is malformed, the value is not a list, the list is
    empty, or no entry survives: none has non-empty trimmed name and value
    (with [include_all = false], and an essential name); otherwise it
    returns a cookie string. *)
Theorem parse_browser_cookies_json_failure :
  (forall include_all,
     parse_browser_cookies_json (Raw "[]") include_all = Raise VE_NoCookies /\
     parse_browser_cookies_json (Raw "{}") include_all = Raise VE_NotList /\
     parse_browser_cookies_json (Raw "") include_all = Raise VE_InvalidJSON /\
     parse_browser_cookies_json (Raw "not json") include_all = Raise VE_InvalidJSON /\
     Forall (fun e => kind e = InvalidFormat) [VE_NoCookies; VE_NotList; VE_InvalidJSON]) /\
  (forall json_data include_all,
     (forall l, decoded json_data = Some (JArr l) -> forallb entry_well_typed l = true) ->
     (forall e, parse_browser_cookies_json json_data include_all = Raise e ->
        kind e = InvalidFormat /\ parse_rejects json_data include_all) /\
     (parse_rejects json_data include_all ->
        exists e, parse_browser_cookies_json json_data include_all = Raise e) /\
     (~ parse_rejects json_data include_all ->
        exists s, parse_browser_cookies_json json_data include_all = Ok s)).
Proof.
  split.
  { intros b. vm_compute. repeat split; repeat constructor. }
  intros x b Hwt. rewrite (parse_cases x b Hwt). unfold parse_rejects.
  destruct (decoded x) as [v|] eqn:Hd.
  - destruct v as [| | | |l|kvs];
      try (split; [intros e He; injection He as <-; split; [reflexivity|]; right; left;
                   eexists; split; [reflexivity|]; discriminate
                  |split; [intros _; eexists; reflexivity|]]);
      try (intros Hn; exfalso; apply Hn; right; left; eexists; split; [reflexivity|discriminate]).
    destruct l as [|e l].
    + split; [intros e He; injection He as <-; split; [reflexivity|]; right; right; left; reflexivity|].
      split; [intros _; eexists; reflexivity|].
      intros Hn. exfalso. apply Hn. right; right; left; reflexivity.
    + destruct (surviving_pairs b (e :: l)) as [|p ps] eqn:Hs.
      * split; [intros e' He; injection He as <-; split; [reflexivity|]|].
        { right; right; right. exists (e :: l). done. }
        split; [intros _; eexists; reflexivity|].
        intros Hn. exfalso. apply Hn. right; right; right. exists (e :: l). done.
      * split; [intros e' He; discriminate|]. split; [|intros _; eexists; reflexivity].
        intros [H|[(v & Hv & Hnl)|[H|(l' & Hl' & Hs')]]]; try discriminate.
        -- injection Hv as <-. exfalso. by apply (Hnl (e :: l)).
        -- injection Hl' as <-. congruence.
  - split; [intros e He; injection He as <-; split; [reflexivity|]; left; reflexivity|].
    split; [intros _; eexists; reflexivity|].
    intros Hn. exfalso. apply Hn. left. reflexivity.
Qed.

Lemma parse_browser_cookies_json_failure_witness :
  parse_browser_cookies_json (Raw "[]") true = Raise VE_NoCookies /\
  (exists e, parse_browser_cookies_json (Raw (dq "[{'name':'x','value':' '}, 5]")) true = Raise e) /\
  exists s, parse_browser_cookies_json (Raw (dq "[{'name':'mid','value':'m'}]")) false = Ok s.
Proof.
  destruct parse_browser_cookies_json_failure as [Hc Hg].
  split; [apply (Hc true)|]. split.
  - assert (Hw : forall l, decoded (Raw (dq "[{'name':'x','value':' '}, 5]")) = Some (JArr l) ->
                   forallb entry_well_typed l = true).
    { intros l Hl. vm_compute in Hl. injection Hl as <-. reflexivity. }
    destruct (Hg _ true Hw) as (_ & Hrej & _). apply Hrej.
    right; right; right. eexists; split; vm_compute; reflexivity.
  - assert (Hw : forall l, decoded (Raw (dq "[{'name':'mid','value':'m'}]")) = Some (JArr l) ->
                   forallb entry_well_typed l = true).
    { intros l Hl. vm_compute in Hl. injection Hl as <-. reflexivity. }
    destruct (Hg _ false Hw) as (_ & _ & Hok). apply Hok. clear Hg Hc Hok Hw.
    unfold parse_rejects.
    intros [H|[(v & Hv & Hnl)|[H|(l' & Hl' & Hs')]]]; vm_compute in *; try discriminate.
    + injection Hv as <-. by apply (Hnl _ eq_refl).
    + injection Hl' as <-. vm_compute in Hs'. discriminate.
Defined.

(** ** C1, amended *)

(** C1 (amended): when no surviving name contains [=] or [;] and no
    surviving value contains [;], [extract_cookie_info] of the cookie string
    is the dict built from the surviving (name, value) pairs in order with
    last-write-wins; so every surviving pair not followed by a later entry of
    the same name is returned exactly, value text unchanged. *)
Theorem parse_extract_roundtrip : forall json_data include_all s l,
  parse_browser_cookies_json json_data include_all = Ok s ->
  decoded json_data = Some (JArr l) ->
  Forall (fun p => has_char "=" p.1 = false /\ has_char ";" p.1 = false /\ has_char ";" p.2 = false)
    (surviving_pairs include_all l) ->
  extract_cookie_info s = dict_of_pairs (surviving_pairs include_all l) /\
  (forall ps1 n v ps2,
     surviving_pairs include_all l = (ps1 ++ (n, v) :: ps2)%list -> n ∉ map fst ps2 ->
     extract_cookie_info s !! n = Some v).
Proof.
  intros json_data include_all s l Hp Hd Hsep.
  apply parse_ok_iff in Hp as (l' & Hd' & _ & Hne & ->).
  rewrite Hd in Hd'. injection Hd' as <-.
  assert (Hgood : Forall good_pair (surviving_pairs include_all l)).
  { pose proof (surviving_pairs_good include_all l) as Hg.
    apply List.Forall_forall. intros p Hin.
    rewrite List.Forall_forall in Hg, Hsep.
    destruct (Hg p Hin) as (? & ? & ? & ?). destruct (Hsep p Hin) as (? & ? & ?).
    unfold good_pair. done. }
  assert (Heq : extract_cookie_info (join "; " (map fmt_pair (surviving_pairs include_all l)))
                = dict_of_pairs (surviving_pairs include_all l)).
  { destruct (surviving_pairs include_all l) as [|p ps] eqn:Hs; [done|].
    unfold extract_cookie_info. simpl map.
    rewrite <- (str_app_nil_l (join "; " (fmt_pair p :: map fmt_pair ps))).
    rewrite split_join.
    - rewrite str_app_nil_l. inversion Hgood as [|? ? Hp Hps]; subst.
      rewrite extract_loop_fmt by exact Hp. rewrite extract_loop_fmts by exact Hps.
      reflexivity.
    - reflexivity.
    - apply List.Forall_forall. intros y Hy.
      change (fmt_pair p :: map fmt_pair ps) with (map fmt_pair (p :: ps)) in Hy.
      apply in_map_iff in Hy as (q & <- & Hq).
      rewrite List.Forall_forall in Hsep. destruct (Hsep q Hq) as (_ & H1 & H2).
      unfold fmt_pair. rewrite !has_char_app, H1, H2. reflexivity. }
  split; [exact Heq|].
  intros ps1 n v ps2 Hs Hn. rewrite Heq, Hs. by apply dict_of_pairs_last.
Qed.

Lemma parse_extract_roundtrip_witness :
  extract_cookie_info "sessionid=123%3Axxx; mid=yyy" !! "sessionid" = Some "123%3Axxx".
Proof.
  destruct (parse_extract_roundtrip
              (Raw (dq "[{'name':'sessionid','value':'123%3Axxx'},{'name':'mid','value':'yyy'}]"))
              true "sessionid=123%3Axxx; mid=yyy"
              [JObj [("name", JStr "sessionid"); ("value", JStr "123%3Axxx")];
               JObj [("name", JStr "mid"); ("value", JStr "yyy")]])
    as [_ Hlast].
  - vm_compute. reflexivity.
  - vm_compute. reflexivity.
  - vm_compute. repeat constructor.
  - apply (Hlast [] "sessionid" "123%3Axxx" [("mid", "yyy")]).
    + vm_compute. reflexivity.
    + simpl. intros Hin. apply list_elem_of_singleton in Hin. discriminate.
Defined.

(** ** C8 *)

(** C8: a cookie string is accepted by [login_by_cookie] exactly when its
    [sessionid] entry has at least the minimum length and begins with a
    non-empty run of digits followed by a non-digit; that run is the user id
    returned.  For a minimum length between 6 and 15 (the range the
    specification's examples pin down), ["short"] fails the length check,
    ["123456789%3Axxx"] gives ["123456789"], and a long enough sessionid
    without leading digits fails with "cannot extract user_id". *)
Theorem login_by_cookie_valid : forall min_len,
  (forall cookie uid,
     login_by_cookie min_len cookie = inr uid <->
     exists sid ch rest,
       extract_cookie_info cookie !! "sessionid" = Some sid /\
       (min_len <= String.length sid)%nat /\
       sid = uid ++ String ch rest /\ uid <> EmptyString /\
       all_digits uid = true /\ is_digit ch = false) /\
  (forall cookie sid,
     extract_cookie_info cookie !! "sessionid" = Some sid ->
     (min_len <= String.length sid)%nat -> leading_digits sid = EmptyString ->
     login_by_cookie min_len cookie = inl LE_NoUserId) /\
  ((6 <= min_len <= 15)%nat ->
     login_by_cookie min_len "sessionid=short" = inl LE_BadLength /\
     login_by_cookie min_len "sessionid=123456789%3Axxx" = inr "123456789" /\
     login_by_cookie min_len "sessionid=invalid_sessionid_without_userid_prefix_1234567890"
       = inl LE_NoUserId).
Proof.
  intros min_len.
  assert (Hsid : forall cookie sid, extract_cookie_info cookie !! "sessionid" = Some sid ->
            login_by_cookie min_len cookie =
            if (String.length sid <? min_len)%nat then inl LE_BadLength
            else match take_digits sid with
                 | (EmptyString, _) => inl LE_NoUserId
                 | (_, EmptyString) => inl LE_NoUserId
                 | (user_id, String _ _) => inr user_id
                 end).
  { intros cookie sid H. unfold login_by_cookie.
    destruct (String.eqb (strip cookie) EmptyString) eqn:Hb.
    - apply String.eqb_eq, blank_cookie_no_sessionid in Hb. congruence.
    - by rewrite H. }
  split; [|split].
  - intros cookie uid. split.
    + intros H. unfold login_by_cookie in H.
      destruct (String.eqb (strip cookie) EmptyString); [discriminate|].
      destruct (extract_cookie_info cookie !! "sessionid") as [sid|] eqn:Hs; [|discriminate].
      destruct (String.length sid <? min_len)%nat eqn:Hl; [discriminate|].
      destruct (take_digits sid) as [d r] eqn:Ht.
      destruct (take_digits_spec _ _ _ Ht) as (-> & Hd & Hr).
      destruct d as [|x d]; [discriminate|]. destruct r as [|ch rest]; [discriminate|].
      injection H as <-. exists (String x d ++ String ch rest), ch, rest.
      apply Nat.ltb_ge in Hl. repeat split; try done.
    + intros (sid & ch & rest & Hs & Hl & -> & Hne & Hd & Hch).
      rewrite (Hsid _ _ Hs). apply Nat.ltb_ge in Hl. rewrite Hl.
      rewrite take_digits_app by done. destruct uid; [done|reflexivity].
  - intros cookie sid Hs Hl Hlead. rewrite (Hsid _ _ Hs).
    apply Nat.ltb_ge in Hl. rewrite Hl. unfold leading_digits in Hlead.
    destruct (take_digits sid) as [[|x d] r]; [reflexivity|discriminate].
  - intros Hm. split; [|split].
    + rewrite (Hsid "sessionid=short" "short") by reflexivity.
      replace (String.length "short" <? min_len)%nat with true
        by (symmetry; apply Nat.ltb_lt; simpl; lia).
      reflexivity.
    + rewrite (Hsid "sessionid=123456789%3Axxx" "123456789%3Axxx") by reflexivity.
      replace (String.length "123456789%3Axxx" <? min_len)%nat with false
        by (symmetry; apply Nat.ltb_ge; simpl; lia).
      reflexivity.
    + rewrite (Hsid "sessionid=invalid_sessionid_without_userid_prefix_1234567890"
                    "invalid_sessionid_without_userid_prefix_1234567890") by reflexivity.
      replace (String.length "invalid_sessionid_without_userid_prefix_1234567890" <? min_len)%nat
        with false by (symmetry; apply Nat.ltb_ge; simpl; lia).
      reflexivity.
Qed.

Lemma login_by_cookie_valid_witness :
  login_by_cookie 10 "sessionid=123456789%3Axxx" = inr "123456789" /\
  login_by_cookie 10 "sessionid=short" = inl LE_BadLength.
Proof.
  destruct (login_by_cookie_valid 10) as (_ & _ & Hc).
  destruct Hc as (H1 & H2 & _); [lia|]. split; assumption.
Defined.

(** ** C9, amended *)

(** C9 (amended): right after [auto_dump_settings] saves a client whose
    user id is [str(n)], [restore_settings] returns that client's settings
    for its username (when not cookie-shaped), for [n] as an integer and as a
    numeric string, and for a cookie string whose [sessionid] starts with
    that digit run. *)
Theorem restore_settings_after_dump : forall cl st dir st' n c,
  auto_dump_settings cl st = Some (dir, st') ->
  settings_user_id (settings cl) = Some (N_to_string n) ->
  is_cookie_string (username cl) = false ->
  is_cookie_string c = true ->
  option_map leading_digits (extract_cookie_info c !! "sessionid") = Some (N_to_string n) ->
  restore_settings st' (IdStr (username cl)) = Some (settings cl) /\
  restore_settings st' (IdInt n) = Some (settings cl) /\
  restore_settings st' (IdStr (N_to_string n)) = Some (settings cl) /\
  restore_settings st' (IdStr c) = Some (settings cl).
Proof.
  intros cl st dir st' n c Hdump Huid Huser Hc Hsid.
  destruct (auto_dump_settings_index _ _ _ _ _ Hdump Huid) as (Hiu & Hid & Hf).
  split; [|split; [|split]].
  - rewrite (restore_settings_key st' _ (username cl) dir); [exact Hf| |exact Hiu].
    simpl. by rewrite Huser.
  - rewrite (restore_settings_key st' _ (N_to_string n) dir); [exact Hf|reflexivity|exact Hid].
  - rewrite (restore_settings_key st' _ (N_to_string n) dir); [exact Hf| |exact Hid].
    simpl. by rewrite N_to_string_not_cookie.
  - rewrite (restore_settings_key st' _ (N_to_string n) dir); [exact Hf| |exact Hid].
    simpl. rewrite Hc.
    destruct (extract_cookie_info c !! "sessionid") as [sid|]; [|discriminate].
    simpl in Hsid. injection Hsid as Hl. rewrite Hl.
    pose proof (N_to_string_nonempty n) as Hne.
    destruct (N_to_string n); [done|reflexivity].
Qed.

Definition test_user : client :=
  {| username := "test_user"; settings := sample_settings "123456789" "test" |}.

Lemma restore_settings_after_dump_witness :
  match auto_dump_settings test_user empty_store with
  | Some (_, st') =>
      restore_settings st' (IdStr "test_user") = Some (settings test_user) /\
      restore_settings st' (IdInt 123456789) = Some (settings test_user) /\
      restore_settings st' (IdStr "123456789") = Some (settings test_user) /\
      restore_settings st' (IdStr "sessionid=123456789%3Atest_session; other=value")
        = Some (settings test_user)
  | None => False
  end.
Proof.
  destruct (auto_dump_settings test_user empty_store) as [[dir st']|] eqn:E;
    [|vm_compute in E; discriminate].
  apply (restore_settings_after_dump test_user empty_store dir st' 123456789
           "sessionid=123456789%3Atest_session; other=value" E);
    vm_compute; reflexivity.
Defined.

(* ================================================================== *)
(** * Further properties of the code *)

(** X1: every key of [extract_cookie_info] is trimmed and has no [=] or
    [;]; every value is trimmed and has no [;]. *)
Theorem extract_cookie_info_binding_shape : forall s k v,
  extract_cookie_info s !! k = Some v ->
  strip k = k /\ strip v = v /\ has_char "=" k = false /\ has_char ";" k = false /\
  has_char ";" v = false.
Proof. intros s k v H. exact (extract_cookie_info_bindings_ok s k v H). Qed.

Lemma extract_cookie_info_binding_shape_witness :
  extract_cookie_info " a = b=c ;d" !! "a" = Some "b=c" /\
  (strip "a" = "a" /\ strip "b=c" = "b=c" /\ has_char "=" "a" = false /\
   has_char ";" "a" = false /\ has_char ";" "b=c" = false).
Proof.
  assert (H : extract_cookie_info " a = b=c ;d" !! "a" = Some "b=c") by (vm_compute; reflexivity).
  split; [exact H|]. exact (extract_cookie_info_binding_shape _ _ _ H).
Defined.

(** X2: [extract_cookie_info] of two cookie strings joined by [;] is the
    union of the two mappings, the second string's keys winning. *)
Theorem extract_cookie_info_concat : forall a b,
  extract_cookie_info (a ++ ";" ++ b) = extract_cookie_info b ∪ extract_cookie_info a.
Proof.
  intros a b. unfold extract_cookie_info. change (";" ++ b) with (String ";" b).
  rewrite split_on_app_sep, extract_loop_app. apply extract_loop_union.
Qed.

(** X3: writing the mapping of [extract_cookie_info] back as
    ["k=v; k=v"] and extracting again gives the same mapping. *)
Theorem extract_cookie_info_reformat : forall s,
  extract_cookie_info (join "; " (map fmt_pair (map_to_list (extract_cookie_info s))))
  = extract_cookie_info s.
Proof. intros s. apply extract_join_map_to_list, extract_cookie_info_bindings_ok. Qed.

(** X4: parsing the concatenation of two cookie lists that each parse gives
    the two cookie strings joined by ["; "]. *)
Theorem parse_browser_cookies_json_concat : forall b x1 x2 l1 l2 s1 s2,
  decoded x1 = Some (JArr l1) -> decoded x2 = Some (JArr l2) ->
  parse_browser_cookies_json x1 b = Ok s1 -> parse_browser_cookies_json x2 b = Ok s2 ->
  parse_browser_cookies_json (Decoded (JArr (l1 ++ l2))) b = Ok (s1 ++ "; " ++ s2).
Proof.
  intros b x1 x2 l1 l2 s1 s2 Hd1 Hd2 H1 H2.
  unfold parse_browser_cookies_json in H1, H2.
  rewrite (proj2 (decode_input_decoded _ _) Hd1) in H1.
  rewrite (proj2 (decode_input_decoded _ _) Hd2) in H2.
  cbn [bind] in H1, H2.
  destruct l1 as [|e1 l1]; [discriminate|]. destruct l2 as [|e2 l2]; [discriminate|].
  destruct (collect_pairs b (e1 :: l1)) as [p1|] eqn:C1; cbn [bind] in H1; [|discriminate].
  destruct (collect_pairs b (e2 :: l2)) as [p2|] eqn:C2; cbn [bind] in H2; [|discriminate].
  destruct p1 as [|a1 p1]; [discriminate|]. destruct p2 as [|a2 p2]; [discriminate|].
  injection H1 as <-. injection H2 as <-.
  unfold parse_browser_cookies_json. cbn [decode_input bind].
  rewrite collect_pairs_app, C1, C2. cbn [bind].
  rewrite join_app by discriminate. reflexivity.
Qed.

Lemma parse_browser_cookies_json_concat_witness :
  parse_browser_cookies_json (Decoded (JArr ([cookie_a] ++ [cookie_b]))) true
  = Ok ("a=1" ++ "; " ++ "b=2").
Proof.
  apply (parse_browser_cookies_json_concat true (Decoded (JArr [cookie_a]))
           (Decoded (JArr [cookie_b])) [cookie_a] [cookie_b] "a=1" "b=2");
    reflexivity.
Defined.

(** X5: a cookie string returned by [parse_browser_cookies_json] is never
    empty and has no leading or trailing whitespace. *)
Theorem parse_browser_cookies_json_trimmed : forall x b s,
  parse_browser_cookies_json x b = Ok s -> s <> EmptyString /\ strip s = s.
Proof.
  intros x b s H. apply parse_ok_iff in H as (l & _ & _ & Hne & ->).
  pose proof (surviving_pairs_ok b l) as Hok.
  destruct (surviving_pairs b l) as [|p ps] eqn:Hs; [done|].
  assert (Hp : pair_ok p) by (inversion Hok; done).
  split; [by apply join_fmt_nonempty|].
  unfold strip. destruct (join_fmt_head p ps) as [t Ht]. rewrite Ht.
  destruct Hp as (Hn & _ & Hn0 & _).
  assert (Hl : lstrip p.1 = p.1).
  { pose proof (lstrip_strip p.1) as E. rewrite Hn in E. exact E. }
  rewrite lstrip_app by done. rewrite <- Ht. apply rstrip_join; [discriminate|exact Hok].
Qed.

Lemma parse_browser_cookies_json_trimmed_witness :
  "a=1; mid=m" <> EmptyString /\ strip "a=1; mid=m" = "a=1; mid=m".
Proof.
  apply (parse_browser_cookies_json_trimmed
           (Raw (dq "[{'name':' a ','value':' 1 '},{'name':'mid','value':'m'}]")) true).
  vm_compute. reflexivity.
Defined.

(** X6: a list returned by [parse_cookies_file] without [line_number] is
    non-empty and is the list of the lines' cookie strings, in file order,
    skipping the lines that fail; each element is what the call with some
    [line_number] in range returns. *)
Theorem parse_cookies_file_batch : forall fs path b rs,
  parse_cookies_file fs path None b = Ok (inr rs) ->
  exists contents, fs !! path = Some contents /\ rs <> [] /\
    rs = ok_results (map (fun l => parse_browser_cookies_json (Raw l) b) (file_lines contents)) /\
    Forall (fun r => exists i, (1 <= i <= Z.of_nat (length (file_lines contents)))%Z /\
                               parse_cookies_file fs path (Some i) b = Ok (inl r)) rs.
Proof.
  intros fs path b rs H. unfold parse_cookies_file in H.
  destruct (fs !! path) as [contents|] eqn:Hf; [|discriminate].
  exists contents.
  destruct (file_lines contents) as [|l0 ls] eqn:Hl; [discriminate|].
  destruct (parse_all_lines b (l0 :: ls)) as [res|e] eqn:Hp; cbn [bind] in H; [|discriminate].
  destruct res as [|r0 res]; [discriminate|]. injection H as <-.
  apply parse_all_lines_ok in Hp.
  split; [done|]. split; [discriminate|]. split; [exact Hp|].
  apply List.Forall_forall. intros r Hr. rewrite Hp in Hr.
  destruct (ok_results_in _ _ _ Hr) as (i & Hi & Hpi).
  exists (Z.of_nat i + 1)%Z. split; [lia|].
  unfold parse_cookies_file. rewrite Hf, Hl. cbv zeta.
  replace ((Z.of_nat i + 1 <? 1)%Z || (Z.of_nat (length (l0 :: ls)) <? Z.of_nat i + 1)%Z)
    with false by (symmetry; apply orb_false_iff; split; apply Z.ltb_ge; lia).
  replace (Z.to_nat (Z.of_nat i + 1 - 1)) with i by lia.
  rewrite Hpi. reflexivity.
Qed.

Lemma parse_cookies_file_batch_witness :
  exists contents, batch_fs !! "cookies.txt" = Some contents /\ ["a=1"; "mid=m"] <> [] /\
    ["a=1"; "mid=m"] =
      ok_results (map (fun l => parse_browser_cookies_json (Raw l) true) (file_lines contents)) /\
    Forall (fun r => exists i, (1 <= i <= Z.of_nat (length (file_lines contents)))%Z /\
                               parse_cookies_file batch_fs "cookies.txt" (Some i) true = Ok (inl r))
      ["a=1"; "mid=m"].
Proof.
  apply (parse_cookies_file_batch batch_fs "cookies.txt" true ["a=1"; "mid=m"]).
  vm_compute. reflexivity.
Defined.

(** X7: when every entry of every line has string ['name'] and ['value']
    where present, [parse_cookies_file] without [line_number] returns the
    cookie strings of the lines that parse, and raises "Failed to parse any
    valid cookies" exactly when no line parses. *)
Theorem parse_cookies_file_batch_well_typed : forall fs path b contents,
  fs !! path = Some contents -> file_lines contents <> [] ->
  (forall l v, In l (file_lines contents) -> json_loads l = Some (JArr v) ->
     forallb entry_well_typed v = true) ->
  parse_cookies_file fs path None b =
    match ok_results (map (fun l => parse_browser_cookies_json (Raw l) b) (file_lines contents)) with
    | [] => Raise VE_FailedAll
    | rs => Ok (inr rs)
    end.
Proof.
  intros fs path b contents Hf Hne Hwt. unfold parse_cookies_file. rewrite Hf. cbv zeta.
  rewrite parse_all_lines_value_errors.
  - destruct (file_lines contents) as [|l ls]; [done|]. cbn [bind].
    destruct (ok_results _); reflexivity.
  - intros l e Hin He. rewrite parse_cases in He by (intros v Hv; exact (Hwt l v Hin Hv)).
    destruct (decoded (Raw l)) as [[| | | |[|x v]|]|]; try destruct (surviving_pairs b _);
      first [discriminate | injection He as <-; reflexivity].
Qed.

Lemma parse_cookies_file_batch_well_typed_witness :
  parse_cookies_file batch_fs "cookies.txt" None true = Ok (inr ["a=1"; "mid=m"]).
Proof.
  rewrite (parse_cookies_file_batch_well_typed batch_fs "cookies.txt" true batch_file).
  - vm_compute. reflexivity.
  - reflexivity.
  - vm_compute. discriminate.
  - intros l v Hin Hv. vm_compute in Hin.
    destruct Hin as [<-|[<-|[<-|[]]]]; vm_compute in Hv; try discriminate;
      injection Hv as <-; reflexivity.
Defined.

(** X8: the lines [parse_cookies_file] works on are non-empty, trimmed and
    contain no line break. *)
Theorem file_lines_shape : forall contents,
  Forall (fun l => l <> EmptyString /\ strip l = l /\
                   has_char "010" l = false /\ has_char "013" l = false)
    (file_lines contents).
Proof. exact file_lines_ok. Qed.

(** X9: a sessionid returned by [extract_sessionid_only] has no [;] and no
    trailing whitespace, and the minimal cookie ["sessionid=" + it] that
    [minimal_cookie_login] builds extracts to the single key [sessionid]
    with that value trimmed. *)
Theorem extract_sessionid_only_minimal : forall s v,
  extract_sessionid_only s = Some v ->
  has_char ";" v = false /\ rstrip v = v /\
  extract_cookie_info ("sessionid=" ++ v) = {[ "sessionid" := strip v ]}.
Proof.
  intros s v H. unfold extract_sessionid_only in H.
  destruct (sessionid_loop_found _ _ H) as (pre & seg & post & Hsegs & Hs).
  assert (Hseg : has_char ";" seg = false).
  { pose proof (split_on_no_sep ";" s) as Hall. rewrite Hsegs in Hall.
    rewrite List.Forall_forall in Hall. apply Hall. apply in_or_app. right. left. reflexivity. }
  assert (Hv : has_char ";" v = false).
  { pose proof (has_char_strip_false _ _ Hseg) as E.
    rewrite Hs, has_char_app in E. apply orb_false_iff in E as [_ E]. exact E. }
  assert (Hr : rstrip v = v).
  { pose proof (rstrip_strip seg) as E. rewrite Hs, rstrip_sessionid in E.
    by apply str_app_cancel in E. }
  split; [done|]. split; [done|].
  unfold extract_cookie_info.
  rewrite split_on_nochar by (rewrite has_char_app, Hv; reflexivity).
  rewrite (extract_loop_sessionid _ v); [apply insert_empty|].
  unfold strip. by rewrite lstrip_sessionid, rstrip_sessionid, Hr.
Qed.

Lemma extract_sessionid_only_minimal_witness :
  has_char ";" "312488908%3AT%3A27" = false /\ rstrip "312488908%3AT%3A27" = "312488908%3AT%3A27" /\
  extract_cookie_info ("sessionid=" ++ "312488908%3AT%3A27")
  = {[ "sessionid" := strip "312488908%3AT%3A27" ]}.
Proof.
  apply (extract_sessionid_only_minimal "csrftoken=xxx; sessionid=312488908%3AT%3A27; mid=yyy").
  vm_compute. reflexivity.
Defined.

(** X10: when [extract_sessionid_only] finds a sessionid, the mapping of
    [extract_cookie_info] of the same string has a [sessionid] key. *)
Theorem extract_sessionid_only_in_cookie_info : forall s v,
  extract_sessionid_only s = Some v -> is_Some (extract_cookie_info s !! "sessionid").
Proof.
  intros s v H. unfold extract_sessionid_only in H.
  destruct (sessionid_loop_found _ _ H) as (pre & seg & post & Hsegs & Hs).
  unfold extract_cookie_info. rewrite Hsegs, extract_loop_app.
  change (seg :: post) with ([seg] ++ post)%list.
  rewrite extract_loop_app, (extract_loop_sessionid seg v) by exact Hs.
  apply extract_loop_is_Some, lookup_insert_is_Some'. by left.
Qed.

Lemma extract_sessionid_only_in_cookie_info_witness :
  is_Some (extract_cookie_info "mid=1; sessionid=9%3Ax; sessionid=8" !! "sessionid").
Proof.
  apply (extract_sessionid_only_in_cookie_info _ "9%3Ax"). vm_compute. reflexivity.
Defined.

(** X11: when every entry with non-empty trimmed name and value has an
    essential name, [include_all] does not change the result, errors
    included. *)
Theorem parse_browser_cookies_json_all_essential : forall x l,
  decoded x = Some (JArr l) ->
  Forall (fun p => is_essential p.1 = true) (valid_pairs l) ->
  parse_browser_cookies_json x false = parse_browser_cookies_json x true.
Proof.
  intros x l Hd Hf. unfold parse_browser_cookies_json.
  rewrite (proj2 (decode_input_decoded _ _) Hd). cbn [bind].
  destruct l as [|e l]; [reflexivity|]. by rewrite collect_pairs_essential.
Qed.

Lemma parse_browser_cookies_json_all_essential_witness :
  parse_browser_cookies_json (Raw (dq "[{'name':'mid','value':'m'},{'name':'x','value':' '}]")) false
  = parse_browser_cookies_json (Raw (dq "[{'name':'mid','value':'m'},{'name':'x','value':' '}]")) true.
Proof.
  apply (parse_browser_cookies_json_all_essential _
           [JObj [("name", JStr "mid"); ("value", JStr "m")];
            JObj [("name", JStr "x"); ("value", JStr " ")]]);
    vm_compute; [reflexivity|repeat constructor].
Defined.

(** X12: on two cookie strings joined by [;], [extract_sessionid_only]
    returns the first string's sessionid when it has one, else the second's
    (the first match wins, where [extract_cookie_info] keeps the last). *)
Theorem extract_sessionid_only_concat : forall a b,
  extract_sessionid_only (a ++ ";" ++ b) =
    match extract_sessionid_only a with
    | Some v => Some v
    | None => extract_sessionid_only b
    end.
Proof.
  intros a b. unfold extract_sessionid_only. change (";" ++ b) with (String ";" b).
  rewrite split_on_app_sep. apply sessionid_loop_app.
Qed.
